(** * Coronavirus web scraper: a shallow embedding of [coronavirus.py]

    The program reads three kinds of Wikipedia pages, joins them by country
    name, derives per-100,000 rates and writes a flat text report.  This file
    embeds the program function by function:

    - Python values: [int] is [Z], [float] is an IEEE 754 binary64 number
      ([spec_float] with precision 53 and maximal exponent 1024), [str] is
      [string] (a character is a code point below 256), [None] is
      [option], [dict] is an insertion-ordered association list;
    - exceptions: a [result] type, and for the functions that print or write
      a state-and-exception monad over the console and the file system;
    - BeautifulSoup documents: rose trees, addressed by position in document
      order. *)

From Stdlib Require Import ZArith String Ascii List Bool Lia.
From Stdlib Require Import Floats.SpecFloat.
From stdpp Require Import base option list gmap strings.

Local Open Scope string_scope.
Local Open Scope Z_scope.

(** ** Exceptions *)

(** The built-in exceptions the program can raise, and [Custom] for an
    exception class a program defines itself ([coronavirus.py] defines
    none). *)
Inductive exn : Type :=
| ZeroDivisionError
| OverflowError
| ValueError
| IndexError
| AttributeError
| TypeError
| KeyError
| FileExistsError
| ReError
| Custom (name : string).

Inductive result (A : Type) : Type :=
| Ok (a : A)
| Raise (e : exn).
Arguments Ok {A} a.
Arguments Raise {A} e.

Definition rbind {A B} (r : result A) (k : A -> result B) : result B :=
  match r with
  | Ok a => k a
  | Raise e => Raise e
  end.

Declare Scope result_scope.
Delimit Scope result_scope with result.
Notation "'let?' x ':=' r 'in' k" := (rbind r (fun x => k))
  (at level 10, x name, r at level 100, k at level 200) : result_scope.
Local Open Scope result_scope.

Definition is_ok {A} (r : result A) : bool :=
  match r with Ok _ => true | Raise _ => false end.

(** ** Python floats *)

Module PyFloat.

Definition prec : Z := 53.
Definition emax : Z := 1024.

Definition float := spec_float.

(** [float(n)] for an [int]: the nearest binary64, ties to even;
    [OverflowError] when [n] is too large. *)
Definition of_int (n : Z) : result float :=
  match binary_normalize prec emax n 0 false with
  | S754_infinity _ => Raise OverflowError
  | f => Ok f
  end.

(** [a / b] for two [int]s: the correctly rounded quotient. *)
Definition int_truediv (a b : Z) : result float :=
  match b, a with
  | Z0, _ => Raise ZeroDivisionError
  | _, Z0 => Ok (S754_zero (b <? 0))
  | _, _ =>
      match SFdiv prec emax
              (S754_finite (a <? 0) (Z.to_pos (Z.abs a)) 0)
              (S754_finite (b <? 0) (Z.to_pos (Z.abs b)) 0) with
      | S754_infinity _ => Raise OverflowError
      | f => Ok f
      end
  end.

Definition is_zero (f : float) : bool :=
  match f with S754_zero _ => true | _ => false end.

(** [a / b] for two [float]s. *)
Definition truediv (a b : float) : result float :=
  if is_zero b then Raise ZeroDivisionError else Ok (SFdiv prec emax a b).

(** [n / b] for an [int] and a [float]: the [int] is converted first. *)
Definition int_float_truediv (n : Z) (b : float) : result float :=
  let? a := of_int n in truediv a b.

(** The integer nearest to [n / d] ([0 < d]), ties to even. *)
Definition div_half_even (n d : Z) : Z :=
  let q := n / d in
  let r := n mod d in
  match 2 * r ?= d with
  | Lt => q
  | Gt => q + 1
  | Eq => if Z.even q then q else q + 1
  end.

(** [round(x, 1)]: the exact value of [x] is rounded to the nearest
    multiple of one tenth, ties to even, and the decimal obtained is read
    back as the nearest float. *)
Definition round1 (x : float) : result float :=
  match x with
  | S754_finite s m e =>
      let tenths :=
        match e with
        | Zneg p => div_half_even (Zpos m * 10) (2 ^ Zpos p)
        | _ => Zpos m * 2 ^ e * 10
        end in
      match tenths with
      | Z0 => Ok (S754_zero s)
      | _ =>
          match SFdiv prec emax
                  (S754_finite s (Z.to_pos tenths) 0)
                  (S754_finite false 10 0) with
          | S754_infinity _ => Raise OverflowError
          | f => Ok f
          end
      end
  | _ => Ok x
  end.

Definition zero : float := S754_zero false.

End PyFloat.

(** ** [calculate_per_100000_stat] *)

Definition calculate_per_100000_stat (population stat : Z)
  : result PyFloat.float :=
  if stat =? 0 then Ok PyFloat.zero
  else
    let? converted_population := PyFloat.int_truediv population 100000 in
    let? rate := PyFloat.int_float_truediv stat converted_population in
    PyFloat.round1 rate.

(** The expression [round(count / (population / 100000), 1)], evaluated
    as Python evaluates it. *)
Definition rounded_rate (population count : Z) : result PyFloat.float :=
  let? per_100000 := PyFloat.int_truediv population 100000 in
  let? rate := PyFloat.int_float_truediv count per_100000 in
  PyFloat.round1 rate.

(** ** Python strings *)

Module PyStr.

Definition newline : ascii := ascii_of_nat 10.

(** [s.startswith(p)] *)
Definition startswith (s p : string) : bool := String.prefix p s.

(** [s.replace(",", "")] *)
Fixpoint remove_commas (s : string) : string :=
  match s with
  | EmptyString => EmptyString
  | String c s' =>
      if Ascii.eqb c "," then remove_commas s'
      else String c (remove_commas s')
  end.

(** The code points below 256 that [int] skips around a literal: the
    ASCII white space and the two spaces above it. *)
Definition is_space (c : ascii) : bool :=
  let n := nat_of_ascii c in
  ((9 <=? n) && (n <=? 13) || (n =? 32) || (n =? 133) || (n =? 160))%nat.

Fixpoint lstrip (s : string) : string :=
  match s with
  | String c s' => if is_space c then lstrip s' else s
  | EmptyString => EmptyString
  end.

Fixpoint rstrip (s : string) : string :=
  match s with
  | String c s' =>
      match rstrip s' with
      | EmptyString => if is_space c then EmptyString else String c EmptyString
      | t => String c t
      end
  | EmptyString => EmptyString
  end.

Definition strip (s : string) : string := rstrip (lstrip s).

Definition digit_value (c : ascii) : option Z :=
  let n := nat_of_ascii c in
  if ((48 <=? n) && (n <=? 57))%nat then Some (Z.of_nat n - 48) else None.

(** Where the scan of a decimal literal stands: nothing read yet, just
    after a digit, just after an underscore. *)
Inductive scan := AtStart | AfterDigit | AfterUnderscore.

Fixpoint parse_digits (st : scan) (acc : Z) (s : string) : option Z :=
  match s with
  | EmptyString =>
      match st with AfterDigit => Some acc | _ => None end
  | String c s' =>
      match digit_value c with
      | Some d => parse_digits AfterDigit (10 * acc + d) s'
      | None =>
          match st with
          | AfterDigit =>
              if Ascii.eqb c "_" then parse_digits AfterUnderscore acc s'
              else None
          | _ => None
          end
      end
  end.

(** [int(s)]: surrounding whitespace is dropped, then an optional sign and
    decimal digits, single underscores allowed between digits. *)
Definition int (s : string) : result Z :=
  let body := strip s in
  let signed :=
    match body with
    | String "-" t => option_map Z.opp (parse_digits AtStart 0 t)
    | String "+" t => parse_digits AtStart 0 t
    | _ => parse_digits AtStart 0 body
    end in
  match signed with
  | Some n => Ok n
  | None => Raise ValueError
  end.

(** The decimal digits of [n], least significant first, at most [fuel]
    of them. *)
Fixpoint rev_digits (fuel : nat) (n : Z) : list ascii :=
  match fuel with
  | O => []
  | S fuel' =>
      ascii_of_nat (48 + Z.to_nat (n mod 10))
        :: (if n <? 10 then [] else rev_digits fuel' (n / 10))
  end.

(** A comma after every third digit of a least-significant-first list. *)
Fixpoint group3 (ds : list ascii) : list ascii :=
  match ds with
  | a :: b :: c :: ((_ :: _) as rest) => a :: b :: c :: "," %char :: group3 rest
  | _ => ds
  end.

(** [f'{n:,}'] *)
Definition format_thousands (n : Z) : string :=
  let m := Z.abs n in
  let body := string_of_list_ascii (rev (group3 (rev_digits (S (Z.to_nat (Z.log2 m))) m))) in
  if n <? 0 then String "-" body else body.

(** [c.lower()] for one character. *)
Definition lower_char (c : ascii) : ascii :=
  let n := nat_of_ascii c in
  if ((65 <=? n) && (n <=? 90)
      || (192 <=? n) && (n <=? 222) && negb (n =? 215))%nat
  then ascii_of_nat (n + 32) else c.

(** [s.lower()] *)
Fixpoint lower (s : string) : string :=
  match s with
  | EmptyString => EmptyString
  | String c s' => String (lower_char c) (lower s')
  end.

(** [f'{s:>w}'] for a string [s]. *)
Definition rjust (w : nat) (s : string) : string :=
  string_of_list_ascii (repeat " "%char (w - String.length s)) ++ s.

End PyStr.

(** ** Regular expressions *)

(** The one pattern the program writes itself, [r'..*\n'], needs only
    single characters, the dot and the star on them. *)
Module Re.

Inductive atom := Dot | Chr (c : ascii).
Inductive item := One (a : atom) | Star (a : atom).
Definition regex := list item.

(** The dot matches anything but a line feed. *)
Definition atom_matches (a : atom) (c : ascii) : bool :=
  match a with
  | Dot => negb (Ascii.eqb c PyStr.newline)
  | Chr c' => Ascii.eqb c c'
  end.

(** Does a prefix of [s] match [r]? *)
Fixpoint match_here (r : regex) (s : string) : bool :=
  match r with
  | [] => true
  | One a :: r' =>
      match s with
      | String c s' => atom_matches a c && match_here r' s'
      | EmptyString => false
      end
  | Star a :: r' =>
      (fix star (s : string) : bool :=
         match_here r' s
         || match s with
            | String c s' => atom_matches a c && star s'
            | EmptyString => false
            end) s
  end.

(** [re.match(r, s)] as a truth value. *)
Definition match_ (r : regex) (s : string) : bool := match_here r s.

End Re.

(** ** BeautifulSoup documents *)

Module Bs4.

#[warnings="-register-all"]
Inductive node : Type :=
| NavigableString (s : string)
| Tag (name : string) (attrs : list (string * string)) (contents : list node).

(** The elements of a tree in document order, the tree itself first:
    the order of [descendants] and of [next_elements]. *)
Fixpoint elements (n : node) : list node :=
  match n with
  | NavigableString _ => [n]
  | Tag _ _ cs => n :: flat_map elements cs
  end.

(** [tag.get_text()] *)
Fixpoint get_text (n : node) : string :=
  match n with
  | NavigableString s => s
  | Tag _ _ cs => fold_right (fun c acc => get_text c ++ acc) "" cs
  end.

(** [tag.string]: the string of a tag that holds nothing else, looking
    through single children. *)
Fixpoint string_ (n : node) : option string :=
  match n with
  | NavigableString s => Some s
  | Tag _ _ [c] => string_ c
  | Tag _ _ _ => None
  end.

(** [tag.get(key, None)] *)
Definition get (n : node) (key : string) : option string :=
  match n with
  | NavigableString _ => None
  | Tag _ attrs _ =>
      option_map snd (List.find (fun kv => String.eqb (fst kv) key) attrs)
  end.

Definition is_tag (name : string) (n : node) : bool :=
  match n with
  | NavigableString _ => false
  | Tag name' _ _ => String.eqb name' name
  end.

(** A parsed page is used through the document-order listing of its
    root; an element is referred to by its position there. *)
Definition soup := list node.
Definition element := nat.

Definition parse (root : node) : soup := elements root.

Definition at_ (doc : soup) (i : element) : node :=
  nth i doc (NavigableString "").

(** [tag.find_all(...)]: the descendants of the element at [i] that pass
    [p], in document order. *)
Definition find_all (doc : soup) (i : element) (p : node -> bool)
  : list element :=
  List.filter (fun j => p (at_ doc j))
    (seq (S i) (length (elements (at_ doc i)) - 1)).

(** [tag.find(...)] *)
Definition find (doc : soup) (i : element) (p : node -> bool)
  : option element :=
  head (find_all doc i p).

Fixpoint first_index (p : node -> bool) (l : list node) (base : nat)
  : option nat :=
  match l with
  | [] => None
  | n :: l' => if p n then Some base else first_index p l' (S base)
  end.

(** [tag.find_next(name)]: the first element after position [i], in the
    whole document, that is a tag of that name. *)
Definition find_next (doc : soup) (i : element) (name : string)
  : option element :=
  first_index (is_tag name) (drop (S i) doc) (S i).

End Bs4.

Import Bs4.

(** ** The console, the file system and the web *)

Record world : Type := World {
  files : gmap string string;   (* the working directory: name to content *)
  console : list string         (* what was printed, oldest first *)
}.

(** A computation that may print, write files and raise. *)
Definition io (A : Type) : Type := world -> result A * world.

Definition ret {A} (a : A) : io A := fun w => (Ok a, w).
Definition raise {A} (e : exn) : io A := fun w => (Raise e, w).
Definition bind {A B} (m : io A) (k : A -> io B) : io B :=
  fun w =>
    match m w with
    | (Ok a, w') => k a w'
    | (Raise e, w') => (Raise e, w')
    end.
Definition lift {A} (r : result A) : io A := fun w => (r, w).

Notation "'let!' x ':=' m 'in' k" := (bind m (fun x => k))
  (at level 10, x name, m at level 100, k at level 200) : result_scope.

(** [print(line)] *)
Definition print (line : string) : io unit :=
  fun w => (Ok tt, {| files := files w; console := console w ++ [line] |}).

(** [open(name, 'x')]: the file must not exist and is created empty. *)
Definition open_x (name : string) : io unit :=
  fun w =>
    match files w !! name with
    | Some _ => (Raise FileExistsError, w)
    | None => (Ok tt, {| files := <[name := ""]> (files w);
                         console := console w |})
    end.

(** [f.write(text)] on the open file [name]. *)
Definition write (name text : string) : io unit :=
  fun w => (Ok tt, {| files := alter (fun old => old ++ text) name (files w);
                      console := console w |}).

(** A [for] loop that threads the value [s] through its body. *)
Fixpoint for_each {A S} (body : S -> A -> io S) (l : list A) (s : S)
  : io S :=
  match l with
  | [] => ret s
  | a :: l' => let! s' := body s a in for_each body l' s'
  end.

(** What [urlopen] gives for an address. *)
Inductive response : Type :=
| Page (root : node)
| URLError (reason : string).

(** ** Dictionaries *)

(** A [dict] keeps its keys in the order of their first insertion;
    assigning to a key that is there replaces the value in place. *)
Fixpoint dict_set {V} (k : string) (v : V) (d : list (string * V))
  : list (string * V) :=
  match d with
  | [] => [(k, v)]
  | (k', v') :: d' =>
      if String.eqb k' k then (k', v) :: d' else (k', v') :: dict_set k v d'
  end.

Fixpoint dict_get {V} (k : string) (d : list (string * V)) : option V :=
  match d with
  | [] => None
  | (k', v') :: d' => if String.eqb k' k then Some v' else dict_get k d'
  end.

(** ** Constants, filters and records of the program *)

(** The filter of [find('table', id=...)]. *)
Definition table_with_id (id : string) (n : node) : bool :=
  is_tag "table" n && bool_decide (get n "id" = Some id).

(** The tuple stored per country. *)
Record country_info : Type := CountryInfo {
  population : string;
  cases : string;
  deaths : string;
  cases_per_100000 : PyFloat.float;
  deaths_per_100000 : PyFloat.float;
  first_paragraph : option string
}.

Definition pandemic_url : string :=
  "https://en.wikipedia.org/wiki/2019%E2%80"
  ++ "%9320_coronavirus_pandemic_by_country_and_territory".

Definition population_url : string :=
  "https://en.wikipedia.org/wiki/List_of_countries_and_"
  ++ "dependencies_by_population".

Definition detail_prefix : string := "/wiki/2020_coronavirus_pandemic_in_".

(** [r'..*\n'] *)
Definition paragraph_pattern : Re.regex :=
  [Re.One Re.Dot; Re.Star Re.Dot; Re.One (Re.Chr PyStr.newline)].

(** ** The program *)

Section Program.

(** The pages of the web, by address. *)
Variable web : string -> response.

(** [re.compile(pattern, re.IGNORECASE)]: [None] when the pattern is not
    a regular expression, otherwise what [regex.search] finds in a
    text. *)
Variable re_compile_ignorecase : string -> option (string -> bool).

(** [urllib.parse.urljoin] *)
Variable urljoin : string -> string -> string.

(** [str(x)] for a float, which is what an f-string writes. *)
Variable float_str : PyFloat.float -> string.

Definition re_compile (pattern : string) : io (string -> bool) :=
  match re_compile_ignorecase pattern with
  | Some search => ret search
  | None => raise ReError
  end.

(** A URL error is printed and [None] is returned. *)
Definition read_url (url : string) : io (option soup) :=
  match web url with
  | URLError url_err =>
      let! _ := print ("Error opening url: " ++ url
                       ++ String PyStr.newline url_err) in
      ret None
  | Page root => ret (Some (parse root))
  end.

(** [find_all('a', string=regex)] keeps the anchors whose [.string] the
    pattern is found in. *)
Definition anchor_matching (search : string -> bool) (n : node) : bool :=
  is_tag "a" n
  && match string_ n with
     | Some s => search s
     | None => false
     end.

Definition get_first_paragraph (url : string) : io (option string) :=
  let! soup := read_url url in
  match soup with
  | None => raise TypeError
  | Some doc =>
      ret (option_map (fun p_tag => get_text (at_ doc p_tag))
             (List.find
                (fun p_tag =>
                   Re.match_ paragraph_pattern (get_text (at_ doc p_tag)))
                (find_all doc 0%nat (is_tag "p"))))
  end.

(** The text of a cell without its commas, as an integer; a cell that
    was not found has no text. *)
Definition cell_int (doc : soup) (cell : option element) : io Z :=
  match cell with
  | None => raise AttributeError
  | Some td => lift (PyStr.int (PyStr.remove_commas (get_text (at_ doc td))))
  end.

Definition get_population (country : string) : io Z :=
  let! soup := read_url population_url in
  match soup with
  | None => raise TypeError
  | Some doc =>
      match find_all doc 0%nat (is_tag "table") with
      | [] => raise IndexError
      | table :: _ =>
          let! regex := re_compile country in
          match find_all doc table (anchor_matching regex) with
          | [] => raise IndexError
          | country_row :: _ =>
              cell_int doc (find_next doc country_row "td")
          end
      end
  end.

(** The body of the loop over the matching anchors. *)
Definition country_loop_body (doc : soup)
    (countries : list (string * country_info)) (country : element)
  : io (list (string * country_info)) :=
  match get (at_ doc country) "href" with
  | None => raise AttributeError
  | Some href =>
      if negb (PyStr.startswith href detail_prefix) then ret countries
      else
        let! cases := cell_int doc (find_next doc country "td") in
        let! deaths :=
          cell_int doc
            (match find_next doc country "td" with
             | Some td => find_next doc td "td"
             | None => None
             end) in
        let link := urljoin "https://en.wikipedia.org" href in
        let! first_paragraph := get_first_paragraph link in
        let! population := get_population (get_text (at_ doc country)) in
        let! cases_per_100000 :=
          lift (calculate_per_100000_stat population cases) in
        let! deaths_per_100000 :=
          lift (calculate_per_100000_stat population deaths) in
        ret (dict_set (get_text (at_ doc country))
               {| population := PyStr.format_thousands population;
                  cases := PyStr.format_thousands cases;
                  deaths := PyStr.format_thousands deaths;
                  cases_per_100000 := cases_per_100000;
                  deaths_per_100000 := deaths_per_100000;
                  first_paragraph := first_paragraph |}
               countries)
  end.

Definition nl : string := String PyStr.newline EmptyString.

(** The text written for one country. *)
Definition summary_block (country : string) (info : country_info)
  : string :=
  "Country: " ++ country ++ nl
  ++ "Population:" ++ PyStr.rjust 30 (population info) ++ nl
  ++ "Total Confirmed Cases:" ++ PyStr.rjust 19 (cases info) ++ nl
  ++ "Total Deaths:" ++ PyStr.rjust 28 (deaths info) ++ nl
  ++ "Cases per 100,000 people:"
  ++ PyStr.rjust 18 (float_str (cases_per_100000 info)) ++ nl
  ++ "Deaths per 100,000 people:"
  ++ PyStr.rjust 17 (float_str (deaths_per_100000 info)) ++ nl
  ++ match first_paragraph info with
     | Some text => text
     | None => "None"
     end ++ nl ++ nl.

Definition summary_name (search_term : string) : string :=
  search_term ++ "summary.txt".

Definition create_summary_file (search_term : string)
    (countries : list (string * country_info)) : io unit :=
  let summary_file := summary_name search_term in
  let! _ := open_x summary_file in
  for_each
    (fun _ country =>
       match dict_get country countries with
       | None => raise KeyError
       | Some info => write summary_file (summary_block country info)
       end)
    (map fst countries) tt.

(** The scraping part of [country_coronavirus_stats]: everything before
    the file is written. *)
Definition collect_countries (search_term : string)
  : io (list (string * country_info)) :=
  let! soup := read_url pandemic_url in
  match soup with
  | None => raise AttributeError
  | Some doc =>
      let table := find doc 0%nat (table_with_id "thetable") in
      let! regex := re_compile search_term in
      match table with
      | None => raise AttributeError
      | Some table =>
          let countries_links := find_all doc table (anchor_matching regex) in
          for_each (country_loop_body doc) countries_links []
      end
  end.

Definition country_coronavirus_stats (search_term : string) : io unit :=
  let! countries := collect_countries search_term in
  create_summary_file search_term countries.

(** [main], given the line typed at the prompt. *)
Definition main (typed : string) : io unit :=
  let! _ := print "Please enter a search term: " in
  let search_term := typed in
  let! _ := country_coronavirus_stats search_term in
  print ("Your data has been saved in the file: "
         ++ PyStr.lower search_term ++ "summary.txt.").

End Program.

(** ** Fixtures *)

Module Fixture.

Fixpoint contains (needle hay : string) : bool :=
  String.prefix needle hay
  || match hay with
     | String _ hay' => contains needle hay'
     | EmptyString => false
     end.

Definition is_meta (c : ascii) : bool :=
  existsb (Ascii.eqb c) (list_ascii_of_string ".^$*+?{}[]\|()").

(** A regular-expression engine for the patterns without metacharacters,
    which are all that the fixtures search for: such a pattern is found
    where it occurs, letter case aside.  It gives no answer on the other
    patterns. *)
Definition literal_ignorecase (pattern : string) : option (string -> bool) :=
  if existsb is_meta (list_ascii_of_string pattern) then None
  else Some (fun text => contains (PyStr.lower pattern) (PyStr.lower text)).

(** [urljoin] of a site and an absolute path without dot segments. *)
Definition join_path (base url : string) : string := base ++ url.

(** [str(x)] for a float that [round(_, 1)] gave, of magnitude below
    [1e16]: the tenths, with a point before the last digit. *)
Definition repr_tenths (x : PyFloat.float) : string :=
  match x with
  | S754_zero s => if s then "-0.0" else "0.0"
  | S754_finite s m e =>
      let tenths :=
        match e with
        | Zneg p => PyFloat.div_half_even (Zpos m * 10) (2 ^ Zpos p)
        | _ => Zpos m * 2 ^ e * 10
        end in
      (if s then "-" else "")
      ++ string_of_list_ascii
           (rev (PyStr.rev_digits (S (Z.to_nat (Z.log2 tenths))) (tenths / 10)))
      ++ "."
      ++ string_of_list_ascii (PyStr.rev_digits 1 (tenths mod 10))
  | S754_infinity s => if s then "-inf" else "inf"
  | S754_nan => "nan"
  end.

Definition text (s : string) : node := NavigableString s.
Definition a (href s : string) : node := Tag "a" [("href", href)] [text s].
Definition td (s : string) : node := Tag "td" [] [text s].
Definition tr (cells : list node) : node := Tag "tr" [] cells.
Definition p (s : string) : node := Tag "p" [] [text s].
Definition document (body : list node) : node := Tag "[document]" [] body.
Definition nl : string := String PyStr.newline EmptyString.

Definition pandemic_page : node :=
  document
    [ p ("Cases by country." ++ nl);
      Tag "table" [("class", "wikitable"); ("id", "thetable")]
        [ tr [ Tag "th" [] [a "/wiki/North_America" "Canada and neighbours"] ];
          tr [ Tag "th" [] [a "/wiki/2020_coronavirus_pandemic_in_Canada" "Canada"];
               td ("100,000" ++ nl); td ("1,000" ++ nl) ];
          tr [ Tag "th" [] [a "/wiki/2020_coronavirus_pandemic_in_Atlantis" "Atlantis"];
               td ("12" ++ nl); td ("0" ++ nl) ] ] ].

Definition population_page : node :=
  document
    [ Tag "table" []
        [ tr [ td "1"; td ""; Tag "td" [] [a "/wiki/Canada" "Canada"];
               td ("50,000,000" ++ nl) ];
          tr [ td "2"; Tag "td" [] [a "/wiki/Congo" "Congo"];
               td ("5,000,000" ++ nl) ] ] ].

Definition canada_page : node :=
  document
    [ p nl;
      p ("The pandemic reached Canada in January 2020." ++ nl);
      p ("Later text." ++ nl) ].

(** A page whose only paragraph does not end its line. *)
Definition atlantis_page : node :=
  document [ p "Atlantis reported twelve cases." ].

Definition canada_url : string :=
  "https://en.wikipedia.org/wiki/2020_coronavirus_pandemic_in_Canada".

Definition atlantis_url : string :=
  "https://en.wikipedia.org/wiki/2020_coronavirus_pandemic_in_Atlantis".

Definition web (url : string) : response :=
  if String.eqb url pandemic_url then Page pandemic_page
  else if String.eqb url population_url then Page population_page
  else if String.eqb url canada_url then Page canada_page
  else if String.eqb url atlantis_url then Page atlantis_page
  else URLError "HTTP Error 404: Not Found".

(** The table lists one name on two rows. *)
Definition pandemic_page_twice : node :=
  document
    [ Tag "table" [("id", "thetable")]
        [ tr [ Tag "th" [] [a "/wiki/2020_coronavirus_pandemic_in_Congo" "Congo"];
               td "1"; td "0" ];
          tr [ Tag "th" [] [a "/wiki/2020_coronavirus_pandemic_in_Canada" "Canada"];
               td "100,000"; td "1,000" ];
          tr [ Tag "th" [] [a "/wiki/2020_coronavirus_pandemic_in_Congo_(K)" "Congo"];
               td "2"; td "0" ] ] ].

Definition web_twice (url : string) : response :=
  if String.eqb url pandemic_url then Page pandemic_page_twice
  else if String.eqb url population_url then Page population_page
  else Page canada_page.

Definition empty_world : world := {| files := ∅; console := [] |}.

(** A working directory where the summary for Canada is there already. *)
Definition world_with_summary : world :=
  {| files := {[ "Canadasummary.txt" := "kept" ]}; console := [] |}.

Definition canada_paragraph : string :=
  "The pandemic reached Canada in January 2020." ++ nl.

Definition canada_entry : string * country_info :=
  ("Canada",
   {| population := "50,000,000"; cases := "100,000"; deaths := "1,000";
      cases_per_100000 := S754_finite false 7036874417766400 (-45);
      deaths_per_100000 := S754_finite false 4503599627370496 (-51);
      first_paragraph := Some canada_paragraph |}).

Definition congo_entry (cases : string) : string * country_info :=
  ("Congo",
   {| population := "5,000,000"; cases := cases; deaths := "0";
      cases_per_100000 := S754_zero false;
      deaths_per_100000 := S754_zero false;
      first_paragraph := Some canada_paragraph |}).

(** A page whose first paragraph is blank but for spaces. *)
Definition blank_first_page : node :=
  document [ p ("   " ++ nl); p ("Text." ++ nl) ].

(** A statistics table whose row for Utopia has no figure for the
    cases. *)
Definition pandemic_page_malformed : node :=
  document
    [ Tag "table" [("id", "thetable")]
        [ tr [ Tag "th" [] [a "/wiki/2020_coronavirus_pandemic_in_Utopia" "Utopia"];
               td "n/a"; td "3" ] ] ].

(** A web where nothing can be opened. *)
Definition web_down (url : string) : response :=
  URLError "<urlopen error [Errno -2] Name or service not known>".

(** A web whose pages have no table. *)
Definition web_no_table (url : string) : response := Page canada_page.

End Fixture.

(** ** The words of the specification *)

(** [j] is a descendant of the element at [i]: the elements of a subtree
    follow its root in document order. *)
Definition descendant (doc : soup) (i j : element) : Prop :=
  (i < j < i + length (elements (at_ doc i)))%nat.

(** [j] is the first descendant of [i], in document order, that passes
    [p]. *)
Definition first_match (doc : soup) (i : element) (p : node -> bool)
    (j : element) : Prop :=
  descendant doc i j /\ p (at_ doc j) = true
  /\ forall k, descendant doc i k -> (k < j)%nat -> p (at_ doc k) = false.

(** [j] is the structurally next [name] tag after the element at [i]. *)
Definition next_tag (doc : soup) (i : element) (name : string)
    (j : element) : Prop :=
  (i < j < length doc)%nat /\ is_tag name (at_ doc j) = true
  /\ forall k, (i < k < j)%nat -> is_tag name (at_ doc k) = false.

(** The integer a cell shows, thousands separators aside. *)
Definition cell_value (doc : soup) (td : element) : result Z :=
  PyStr.int (PyStr.remove_commas (get_text (at_ doc td))).

(** The names of a list, each kept where it first occurs. *)
Fixpoint first_occurrences (l : list string) : list string :=
  match l with
  | [] => []
  | x :: l' =>
      x :: List.filter (fun y => negb (String.eqb y x)) (first_occurrences l')
  end.

(** The value that comes last for the key [k] in a list of entries. *)
Fixpoint last_value {V} (k : string) (entries : list (string * V))
  : option V :=
  match entries with
  | [] => None
  | (k', v) :: rest =>
      match last_value k rest with
      | Some v' => Some v'
      | None => if String.eqb k' k then Some v else None
      end
  end.

(** Assigning the entries of a list to a dictionary, in order. *)
Definition dict_update {V} (entries : list (string * V))
    (d : list (string * V)) : list (string * V) :=
  fold_left (fun d e => dict_set (fst e) (snd e) d) entries d.

Definition keys {V} (d : list (string * V)) : list string := map fst d.

Definition mem (k : string) (l : list string) : bool :=
  existsb (String.eqb k) l.

(** The number that decimal digits write, the least significant first. *)
Fixpoint digits_value (ds : list ascii) : Z :=
  match ds with
  | [] => 0
  | c :: ds' => Z.of_nat (nat_of_ascii c) - 48 + 10 * digits_value ds'
  end.

Definition is_digit (c : ascii) : bool :=
  match PyStr.digit_value c with Some _ => true | None => false end.

Definition not_comma (c : ascii) : bool := negb (Ascii.eqb c ",").

(** One more digit read, after the ones that gave [acc]. *)
Definition shift_in (acc : Z) (c : ascii) : Z :=
  10 * acc + (Z.of_nat (nat_of_ascii c) - 48).

(** The sign of a float, [true] for minus; a NaN has none. *)
Definition sign_bit (f : PyFloat.float) : option bool :=
  match f with
  | S754_nan => None
  | S754_zero s | S754_infinity s | S754_finite s _ _ => Some s
  end.

(** A text whose first line is not empty and is ended by a line feed. *)
Definition starts_with_a_line (text : string) : Prop :=
  exists c rest, text = String c rest /\ c <> PyStr.newline
                 /\ In PyStr.newline (list_ascii_of_string rest).

(** A computation that leaves the files as they are. *)
Definition keeps_files {A} (m : io A) : Prop :=
  forall w, files (snd (m w)) = files w.

(** A computation that has changed nothing when it returns. *)
Definition quiet {A} (m : io A) : Prop :=
  forall w a w', m w = (Ok a, w') -> w' = w.

(** An accepted anchor: its link target starts with the prefix of the
    country pages of 2020. *)
Definition accepted (doc : soup) (country : element) : bool :=
  match get (at_ doc country) "href" with
  | Some href => PyStr.startswith href detail_prefix
  | None => false
  end.

Definition has_href (doc : soup) (country : element) : Prop :=
  is_Some (get (at_ doc country) "href").

Section Words.

Variable web : string -> response.
Variable re_compile_ignorecase : string -> option (string -> bool).
Variable urljoin : string -> string -> string.
Variable float_str : PyFloat.float -> string.

(** The entry of one accepted anchor: the two cells after it are the
    cases and the deaths, the paragraph comes from the page of the
    country, the population from the population page. *)
Definition country_entry (doc : soup) (w : world) (country : element)
    (entry : string * country_info) : Prop :=
  exists href td1 td2 n_cases n_deaths paragraph n_population rate_c rate_d,
    get (at_ doc country) "href" = Some href
    /\ PyStr.startswith href detail_prefix = true
    /\ next_tag doc country "td" td1
    /\ next_tag doc td1 "td" td2
    /\ cell_value doc td1 = Ok n_cases
    /\ cell_value doc td2 = Ok n_deaths
    /\ get_first_paragraph web (urljoin "https://en.wikipedia.org" href) w
       = (Ok paragraph, w)
    /\ get_population web re_compile_ignorecase (get_text (at_ doc country)) w
       = (Ok n_population, w)
    /\ calculate_per_100000_stat n_population n_cases = Ok rate_c
    /\ calculate_per_100000_stat n_population n_deaths = Ok rate_d
    /\ entry
       = (get_text (at_ doc country),
          {| population := PyStr.format_thousands n_population;
             cases := PyStr.format_thousands n_cases;
             deaths := PyStr.format_thousands n_deaths;
             cases_per_100000 := rate_c;
             deaths_per_100000 := rate_d;
             first_paragraph := paragraph |}).

(** The text of a report: the blocks of the countries, in the order of the
    dictionary. *)
Definition report (countries : list (string * country_info)) : string :=
  fold_right
    (fun entry text => summary_block float_str (fst entry) (snd entry) ++ text)%string
    "" countries.

End Words.

(** * Facts *)

(** ** Rounding never loses a value above the smallest subnormal *)

Module PyFloatFacts.
Import PyFloat.

Lemma Zdigits2_log2 m : 0 < m -> Zdigits2 m = Z.log2 m + 1.
Proof.
  destruct m as [|q|q]; try lia. intros _.
  assert (H : forall q, digits2_pos q = Pos.size q)
    by (induction q0 as [q0 IH|q0 IH|]; simpl; congruence).
  simpl. rewrite H. destruct q; simpl; lia.
Qed.

Lemma shr_1_m r : 0 <= shr_m r -> shr_m (shr_1 r) = shr_m r / 2.
Proof.
  destruct r as [m r s]. simpl. intros Hm.
  destruct m as [|[q|q|]|q]; simpl; try lia; try reflexivity.
  - apply Z.div_unique with (r := 1); lia.
  - apply Z.div_unique with (r := 0); lia.
Qed.

Lemma shr_1_nonneg r : 0 <= shr_m r -> 0 <= shr_m (shr_1 r).
Proof. intros H. rewrite shr_1_m by done. apply Z.div_pos; lia. Qed.

Lemma iter_pos_shr_m q : forall r,
  0 <= shr_m r -> shr_m (SpecFloat.iter_pos shr_1 q r) = shr_m r / 2 ^ Zpos q.
Proof.
  induction q as [q IH|q IH|]; intros r Hr; simpl SpecFloat.iter_pos.
  - assert (H1 := shr_1_nonneg r Hr).
    assert (H2 : 0 <= shr_m (SpecFloat.iter_pos shr_1 q (shr_1 r))).
    { rewrite IH by done. apply Z.div_pos; lia. }
    rewrite IH, IH, shr_1_m by done.
    rewrite !Z.div_div by lia. f_equal.
    replace (Z.pos q~1) with (1 + Z.pos q + Z.pos q) by lia.
    rewrite !Z.pow_add_r by lia. ring.
  - assert (H2 : 0 <= shr_m (SpecFloat.iter_pos shr_1 q r)).
    { rewrite IH by done. apply Z.div_pos; lia. }
    rewrite IH, IH by done.
    rewrite !Z.div_div by lia. f_equal.
    replace (Z.pos q~0) with (Z.pos q + Z.pos q) by lia.
    rewrite !Z.pow_add_r by lia. ring.
  - rewrite shr_1_m by done. reflexivity.
Qed.

Lemma shr_spec r e n :
  0 <= shr_m r ->
  shr_m (fst (shr r e n)) = shr_m r / 2 ^ Z.max 0 n
  /\ snd (shr r e n) = e + Z.max 0 n.
Proof.
  intros Hr. destruct n as [|q|q]; simpl.
  - rewrite Z.div_1_r. lia.
  - rewrite iter_pos_shr_m by done. split; [done | lia].
  - rewrite Z.div_1_r. lia.
Qed.

Lemma shr_m_of_loc m l : shr_m (shr_record_of_loc m l) = m.
Proof. by destruct l as [|[]]. Qed.

(** The first rounding step keeps a positive mantissa positive, and the
    value above the subnormal threshold. *)
Lemma shr_fexp_pos m e l :
  0 < m -> emin prec emax < Zdigits2 m + e ->
  0 < shr_m (fst (shr_fexp prec emax m e l))
  /\ Zdigits2 m + e
     <= Zdigits2 (shr_m (fst (shr_fexp prec emax m e l)))
        + snd (shr_fexp prec emax m e l).
Proof.
  intros Hm He. unfold shr_fexp.
  set (n := fexp prec emax (Zdigits2 m + e) - e).
  destruct (shr_spec (shr_record_of_loc m l) e n) as [H1 H2];
    [rewrite shr_m_of_loc; lia|].
  rewrite H1, H2, shr_m_of_loc.
  assert (Hn : Z.max 0 n < Zdigits2 m).
  { subst n. unfold fexp, emin, prec, emax in *.
    rewrite Zdigits2_log2 in * by done.
    pose proof (Z.log2_nonneg m). lia. }
  rewrite Zdigits2_log2 in Hn by done.
  assert (Hk : 0 <= Z.max 0 n) by lia.
  rewrite <- Z.shiftr_div_pow2 by done.
  assert (Hlog : Z.log2 (Z.shiftr m (Z.max 0 n)) = Z.log2 m - Z.max 0 n).
  { rewrite Z.log2_shiftr by done. lia. }
  assert (Hpos : 0 < Z.shiftr m (Z.max 0 n)).
  { rewrite Z.shiftr_div_pow2 by done.
    apply Z.div_str_pos. split; [lia|].
    transitivity (2 ^ Z.log2 m); [apply Z.pow_le_mono_r; lia|].
    apply Z.log2_spec; lia. }
  split; [done|].
  rewrite !Zdigits2_log2 by done. lia.
Qed.

Lemma round_nearest_even_ge m l : m <= round_nearest_even m l.
Proof. destruct l as [|[]]; simpl; try lia. destruct (Z.even m); lia. Qed.

Lemma Zdigits2_mono a b : 0 < a -> a <= b -> Zdigits2 a <= Zdigits2 b.
Proof.
  intros Ha Hab. rewrite !Zdigits2_log2 by lia.
  pose proof (Z.log2_le_mono a b Hab). lia.
Qed.

(** A positive mantissa above the subnormal threshold is never rounded
    to zero. *)
Lemma binary_round_aux_nonzero s m e l :
  0 < m -> emin prec emax < Zdigits2 m + e ->
  is_zero (binary_round_aux prec emax s m e l) = false.
Proof.
  intros Hm He. unfold binary_round_aux.
  destruct (shr_fexp_pos m e l Hm He) as [H1 H2].
  destruct (shr_fexp prec emax m e l) as [r1 e1]. simpl in H1, H2.
  set (m2 := round_nearest_even (shr_m r1) (loc_of_shr_record r1)).
  assert (Hm2 : shr_m r1 <= m2) by apply round_nearest_even_ge.
  assert (Hd : Zdigits2 (shr_m r1) <= Zdigits2 m2)
    by (apply Zdigits2_mono; lia).
  destruct (shr_fexp_pos m2 e1 loc_Exact) as [H3 _]; [lia | lia |].
  destruct (shr_fexp prec emax m2 e1 loc_Exact) as [r2 e2]. simpl in H3.
  destruct (shr_m r2); try lia.
  by destruct (e2 <=? emax - prec).
Qed.

(** *** The size of a rounded value *)

Lemma Zdigits2_nonneg m : 0 <= Zdigits2 m.
Proof. destruct m; simpl; lia. Qed.

Lemma Zdigits2_succ m : 0 <= m -> Zdigits2 (m + 1) <= Zdigits2 m + 1.
Proof.
  intros Hm. destruct (Z.eq_dec m 0) as [->|Hne]; [simpl; lia|].
  rewrite !Zdigits2_log2 by lia.
  pose proof (Z.log2_succ_le m). unfold Z.succ in *. lia.
Qed.

Lemma round_nearest_even_le m l : round_nearest_even m l <= m + 1.
Proof. destruct l as [|[]]; simpl; try lia. destruct (Z.even m); lia. Qed.

(** One rounding step: the exponent reached, and the size [digits +
    exponent] of what is left, which is the size of what was there. *)
Lemma shr_fexp_spec m e l :
  0 <= m ->
  0 <= shr_m (fst (shr_fexp prec emax m e l))
  /\ snd (shr_fexp prec emax m e l)
     = Z.max e (fexp prec emax (Zdigits2 m + e))
  /\ (0 < shr_m (fst (shr_fexp prec emax m e l)) ->
      Zdigits2 (shr_m (fst (shr_fexp prec emax m e l)))
      + snd (shr_fexp prec emax m e l)
      = Zdigits2 m + e).
Proof.
  intros Hm. unfold shr_fexp.
  set (n := fexp prec emax (Zdigits2 m + e) - e).
  destruct (shr_spec (shr_record_of_loc m l) e n) as [H1 H2];
    [rewrite shr_m_of_loc; lia|].
  rewrite H1, H2, shr_m_of_loc.
  assert (Hk : 0 <= Z.max 0 n) by lia.
  split; [apply Z.div_pos; lia|]. split; [lia|].
  rewrite <- Z.shiftr_div_pow2 by done. intros Hpos.
  assert (0 < m).
  { destruct (Z.eq_dec m 0) as [->|]; [|lia].
    rewrite Z.shiftr_0_l in Hpos. lia. }
  rewrite !Zdigits2_log2 by done.
  rewrite Z.log2_shiftr by done.
  assert (Z.max 0 n <= Z.log2 m); [|lia].
  apply Z.nlt_ge. intros Hlt.
  rewrite Z.shiftr_eq_0 in Hpos; lia.
Qed.

(** The two steps of [binary_round_aux]: the mantissa and the exponent it
    ends with, and the bounds on them. *)
Lemma binary_round_aux_spec s m e l :
  0 <= m ->
  exists m2 e2,
    binary_round_aux prec emax s m e l
    = match m2 with
      | 0 => S754_zero s
      | Zpos q => if e2 <=? emax - prec then S754_finite s q e2
                  else S754_infinity s
      | Zneg _ => S754_nan
      end
    /\ 0 <= m2
    /\ e2 <= Z.max e (Z.max (Zdigits2 m + e - 52) (-1074))
    /\ (0 < m2 -> Zdigits2 m2 + e2 <= Z.max (Zdigits2 m + e) (-1074) + 1)
    /\ (0 < m -> -1074 < Zdigits2 m + e ->
        0 < m2 /\ Zdigits2 m + e <= Zdigits2 m2 + e2).
Proof.
  intros Hm. unfold binary_round_aux.
  destruct (shr_fexp_spec m e l Hm) as (H1 & H2 & H3).
  pose proof (shr_fexp_pos m e l) as H4.
  destruct (shr_fexp prec emax m e l) as [r1 e1]. simpl in H1, H2, H3, H4.
  set (m1 := shr_m r1) in *.
  set (m1' := round_nearest_even m1 (loc_of_shr_record r1)).
  assert (Hge : m1 <= m1') by apply round_nearest_even_ge.
  assert (Hle : m1' <= m1 + 1) by apply round_nearest_even_le.
  destruct (shr_fexp_spec m1' e1 loc_Exact ltac:(lia)) as (H5 & H6 & H7).
  pose proof (shr_fexp_pos m1' e1 loc_Exact) as H8.
  destruct (shr_fexp prec emax m1' e1 loc_Exact) as [r2 e2].
  simpl in H5, H6, H7, H8.
  exists (shr_m r2), e2. split; [done|]. split; [done|].
  pose proof (Zdigits2_nonneg m) as Hd.
  pose proof (Zdigits2_nonneg m1) as Hd1.
  assert (Hd1' : Zdigits2 m1' <= Zdigits2 m1 + 1).
  { destruct (Z.eq_dec m1' m1) as [->|]; [lia|].
    replace m1' with (m1 + 1) by lia. by apply Zdigits2_succ. }
  assert (Hmag1 : Zdigits2 m1 + e1 <= Z.max (Zdigits2 m + e) (-1074)).
  { destruct (Z.eq_dec m1 0) as [Hz|Hnz].
    - rewrite Hz. simpl. rewrite H2. unfold fexp, emin, prec, emax. lia.
    - rewrite H3 by lia. lia. }
  unfold fexp, emin, prec, emax in *.
  split; [lia|]. split.
  - intros Hpos. rewrite H7 by done. lia.
  - intros Hmpos Habove.
    destruct (H4 Hmpos ltac:(lia)) as [Hm1 Hmag].
    assert (Hm1' : 0 < m1') by lia.
    assert (Hdd : Zdigits2 m1 <= Zdigits2 m1') by (apply Zdigits2_mono; lia).
    destruct (H8 Hm1' ltac:(lia)) as [Hm2 Hmag2].
    split; [done | lia].
Qed.

(** The quotient that [SFdiv] rounds: its exponent, and its size, which
    is the difference of the sizes of the operands, one more or one
    less. *)
Lemma SFdiv_core_binary_spec m1 e1 m2 e2 :
  0 < m1 -> 0 < m2 ->
  exists q e' l,
    SFdiv_core_binary prec emax m1 e1 m2 e2 = (q, e', l)
    /\ 0 <= q
    /\ e' <= fexp prec emax (Zdigits2 m1 + e1 - (Zdigits2 m2 + e2))
    /\ e' <= e1 - e2
    /\ (0 < q ->
        Zdigits2 q + e' <= Zdigits2 m1 + e1 - (Zdigits2 m2 + e2) + 1)
    /\ (-1074 <= Zdigits2 m1 + e1 - (Zdigits2 m2 + e2) - 53 ->
        0 < q /\ Zdigits2 m1 + e1 - (Zdigits2 m2 + e2) - 1 <= Zdigits2 q + e').
Proof.
  intros Hm1 Hm2. unfold SFdiv_core_binary.
  set (X := Zdigits2 m1 + e1 - (Zdigits2 m2 + e2)).
  set (e' := Z.min (fexp prec emax X) (e1 - e2)).
  set (sh := e1 - e2 - e').
  assert (Hsh : 0 <= sh) by (unfold sh, e'; lia).
  set (m' := match sh with
             | 0 => m1
             | Z.pos _ => Z.shiftl m1 sh
             | Z.neg _ => 0
             end).
  assert (Hm' : m' = m1 * 2 ^ sh).
  { unfold m'. destruct sh as [|k|k]; [lia | | lia].
    by rewrite Z.shiftl_mul_pow2. }
  assert (Hm'pos : 0 < m') by (rewrite Hm'; apply Z.mul_pos_pos; lia).
  assert (Hlog' : Z.log2 m' = sh + Z.log2 m1)
    by (rewrite Hm'; by apply Z.log2_mul_pow2).
  pose proof (Z.div_eucl_eq m' m2 ltac:(lia)) as Heq.
  pose proof (Z.mod_pos_bound m' m2 ltac:(lia)) as Hr.
  unfold Z.modulo in Hr.
  destruct (Z.div_eucl m' m2) as [q r].
  exists q, e', (new_location m2 r). split; [done|].
  assert (Hq : 0 <= q) by nia.
  split; [done|]. split; [unfold e'; lia|]. split; [unfold e'; lia|].
  assert (Hd1 := Zdigits2_log2 m1 Hm1).
  assert (Hd2 := Zdigits2_log2 m2 Hm2).
  split.
  - intros Hqpos. rewrite (Zdigits2_log2 q) by done.
    pose proof (Z.log2_mul_below q m2 Hqpos Hm2) as Hbelow.
    assert (Hmono : Z.log2 (q * m2) <= Z.log2 m')
      by (apply Z.log2_le_mono; nia).
    unfold X, sh in *. lia.
  - intros Hnormal.
    assert (Hx : fexp prec emax X = X - 53)
      by (unfold fexp, emin, prec, emax; lia).
    assert (Hlarge : Z.log2 m2 + 1 <= Z.log2 m').
    { rewrite Hlog'. unfold sh, e'. rewrite Hx. unfold X. lia. }
    assert (Hqpos : 0 < q).
    { apply Z.nle_gt. intros Hq0. assert (q = 0) as -> by lia.
      assert (Hlt : m' < m2) by lia.
      pose proof (Z.log2_le_mono m' m2 ltac:(lia)). lia. }
    split; [done|].
    rewrite (Zdigits2_log2 q) by done.
    assert (Hup : m' <= m2 * (2 * q)) by nia.
    pose proof (Z.log2_le_mono _ _ Hup) as Hmono.
    pose proof (Z.log2_mul_above m2 (2 * q) ltac:(lia) ltac:(lia)) as Habove.
    rewrite (Z.log2_double q Hqpos) in Habove.
    unfold X, sh in *. lia.
Qed.

(** *** When the operations return *)


(** The quotient of two finite floats, with the size [digits + exponent]
    of the operands written [X]. *)
Lemma SFdiv_finite_spec sa ma ea sb mb eb :
  exists m2 e2,
    SFdiv prec emax (S754_finite sa ma ea) (S754_finite sb mb eb)
    = match m2 with
      | 0 => S754_zero (xorb sa sb)
      | Zpos q => if e2 <=? emax - prec then S754_finite (xorb sa sb) q e2
                  else S754_infinity (xorb sa sb)
      | Zneg _ => S754_nan
      end
    /\ 0 <= m2
    /\ e2 <= Z.max (Zdigits2 (Zpos ma) + ea - (Zdigits2 (Zpos mb) + eb) - 51)
               (-1074)
    /\ (0 < m2 ->
        Zdigits2 m2 + e2
        <= Z.max (Zdigits2 (Zpos ma) + ea - (Zdigits2 (Zpos mb) + eb) + 1)
             (-1074) + 1)
    /\ (-1074 <= Zdigits2 (Zpos ma) + ea - (Zdigits2 (Zpos mb) + eb) - 53 ->
        0 < m2
        /\ Zdigits2 (Zpos ma) + ea - (Zdigits2 (Zpos mb) + eb) - 1
           <= Zdigits2 m2 + e2).
Proof.
  unfold SFdiv.
  destruct (SFdiv_core_binary_spec (Zpos ma) ea (Zpos mb) eb)
    as (q & e' & l & -> & Hq & He1 & He2 & Hup & Hlow); [lia..|].
  destruct (binary_round_aux_spec (xorb sa sb) q e' l Hq)
    as (m2 & e2 & -> & Hm2 & Hb1 & Hb2 & Hb3).
  exists m2, e2. split; [done|]. split; [done|].
  set (X := Zdigits2 (Zpos ma) + ea - (Zdigits2 (Zpos mb) + eb)) in *.
  assert (Hmag : Zdigits2 q + e' <= Z.max (X + 1) (-1074)).
  { destruct (Z.eq_dec q 0) as [->|]; [|lia].
    simpl. unfold fexp, emin, prec, emax in He1. lia. }
  unfold fexp, emin, prec, emax in He1.
  split; [lia|]. split; [lia|].
  intros Hnormal. destruct (Hlow Hnormal) as [Hqpos Hqmag].
  destruct (Hb3 Hqpos ltac:(lia)) as [? ?]. split; [done | lia].
Qed.








(** The quotient of a positive [int] by 100000 is never [0.0]: the
    conversion of a positive population either overflows or is a float
    one can divide by. *)
Lemma int_truediv_100000_nonzero population :
  0 < population ->
  match int_truediv population 100000 with
  | Ok f => is_zero f = false
  | Raise e => e = OverflowError
  end.
Proof.
  intros Hp. unfold int_truediv.
  destruct population as [|q|q]; try lia.
  change (Zpos q <? 0) with false. change (100000 <? 0) with false.
  change (Z.to_pos (Z.abs 100000)) with 100000%positive.
  change (Z.to_pos (Z.abs (Zpos q))) with q.
  assert (H : is_zero (SFdiv prec emax (S754_finite false q 0)
                         (S754_finite false 100000 0)) = false).
  { unfold SFdiv, SFdiv_core_binary.
    set (d1 := Zdigits2 (Zpos q)).
    change (Zdigits2 100000) with 17.
    assert (Hd1 : d1 = Z.log2 (Zpos q) + 1) by (apply Zdigits2_log2; lia).
    pose proof (Z.log2_nonneg (Zpos q)) as Hl.
    pose proof (Z.log2_spec (Zpos q) ltac:(lia)) as [Hlo _].
    set (e' := Z.min (fexp prec emax (d1 + 0 - (17 + 0))) (0 - 0)).
    set (m' := match 0 - 0 - e' with
               | 0 => Zpos q
               | Zpos _ => Z.shiftl (Zpos q) (0 - 0 - e')
               | Zneg _ => 0
               end).
    assert (He' : e' = Z.min (d1 - 70) 0).
    { subst e'. unfold fexp, emin, prec, emax. lia. }
    assert (Hm' : 2 ^ 69 <= m').
    { subst m'. destruct (Z.le_gt_cases 70 d1) as [Hge|Hlt].
      - replace (0 - 0 - e') with 0 by lia.
        transitivity (2 ^ Z.log2 (Zpos q)); [|done].
        apply Z.pow_le_mono_r; lia.
      - replace (0 - 0 - e') with (70 - d1) by lia.
        destruct (70 - d1) as [|k|k] eqn:Hk; try lia.
        rewrite Z.shiftl_mul_pow2 by lia.
        replace 69 with (Z.log2 (Zpos q) + Zpos k) by lia.
        rewrite Z.pow_add_r by lia.
        apply Z.mul_le_mono_nonneg_r; [lia | done]. }
    pose proof (Z.div_eucl_eq m' 100000 ltac:(lia)) as Heq.
    pose proof (Z.mod_pos_bound m' 100000 ltac:(lia)) as Hr.
    unfold Z.modulo in Hr.
    destruct (Z.div_eucl m' 100000) as [qz rz].
    apply binary_round_aux_nonzero.
    - change (2 ^ 69) with 590295810358705651712 in Hm'. lia.
    - assert (Hq : 0 < qz)
        by (change (2 ^ 69) with 590295810358705651712 in Hm'; lia).
      rewrite Zdigits2_log2 by done.
      pose proof (Z.log2_nonneg qz).
      unfold emin, prec, emax. lia. }
  destruct (SFdiv prec emax (S754_finite false q 0)
              (S754_finite false 100000 0)); try done.
Qed.

End PyFloatFacts.

(** ** The rate *)

Lemma calculate_per_100000_stat_nonzero population stat :
  stat <> 0 ->
  calculate_per_100000_stat population stat = rounded_rate population stat.
Proof.
  intros Hs. unfold calculate_per_100000_stat, rounded_rate.
  destruct (Z.eqb_spec stat 0); [lia | reflexivity].
Qed.

Lemma int_float_truediv_zero stat b :
  PyFloat.is_zero b = true ->
  PyFloat.int_float_truediv stat b
  = Raise (if is_ok (PyFloat.of_int stat) then ZeroDivisionError
           else OverflowError).
Proof.
  intros Hb. unfold PyFloat.int_float_truediv, PyFloat.truediv.
  destruct (PyFloat.of_int stat) as [f|e] eqn:Hf; simpl.
  - by rewrite Hb.
  - unfold PyFloat.of_int in Hf.
    destruct (binary_normalize _ _ _ _ _); congruence.
Qed.





(** The end-to-end figures of the specification: 100,000 cases and 1,000
    deaths among 50,000,000 people are rates of 200.0 and 2.0. *)
Example rate_canada_cases :
  calculate_per_100000_stat 50000000 100000 = PyFloat.of_int 200.
Proof. vm_compute. reflexivity. Qed.

Example rate_canada_deaths :
  calculate_per_100000_stat 50000000 1000 = PyFloat.of_int 2.
Proof. vm_compute. reflexivity. Qed.

(** 1234567 among 331,000,000 is 372.98...; the rate is 373.0. *)
Example rate_rounds_to_one_decimal :
  calculate_per_100000_stat 331000000 1234567 = PyFloat.int_truediv 3730 10.
Proof. vm_compute. reflexivity. Qed.

(** C2: a count of zero gives exactly [0.0], whatever the population. *)
Theorem calculate_per_100000_stat_zero population :
  calculate_per_100000_stat population 0 = Ok (S754_zero false).
Proof. reflexivity. Qed.

(** C3, as the code has it: with a population of zero and a count other
    than zero the function raises, a [ZeroDivisionError] when the count
    fits a float and an [OverflowError] otherwise. *)
Theorem calculate_per_100000_stat_population_zero count :
  count <> 0 ->
  calculate_per_100000_stat 0 count
  = Raise (if is_ok (PyFloat.of_int count) then ZeroDivisionError
           else OverflowError).
Proof.
  intros Hc. rewrite calculate_per_100000_stat_nonzero by done.
  unfold rounded_rate. simpl PyFloat.int_truediv. cbn [rbind].
  rewrite int_float_truediv_zero by done. reflexivity.
Qed.

Lemma calculate_per_100000_stat_population_zero_witness :
  calculate_per_100000_stat 0 5 = Raise ZeroDivisionError.
Proof. apply (calculate_per_100000_stat_population_zero 5). lia. Defined.

(** C3 fails below zero: a population of -100000 and a count of 5 give
    the rate -5.0, and no exception. *)
Lemma calculate_per_100000_stat_negative_population :
  -100000 <= 0 /\ 5 <> 0
  /\ calculate_per_100000_stat (-100000) 5
     = Ok (S754_finite true 5629499534213120 (-50))
  /\ calculate_per_100000_stat (-100000) 5 <> Raise (Custom "InvalidInputError").
Proof. vm_compute. repeat split; congruence. Qed.

(** ** Documents *)

Module Bs4Facts.

Lemma nth_drop {A} (l : list A) n k d : nth k (drop n l) d = nth (n + k) l d.
Proof.
  revert l. induction n as [|n IH]; intros [|x l]; simpl; try done.
  by destruct k.
Qed.

Lemma first_index_Some p l base j :
  first_index p l base = Some j <->
  (base <= j < base + length l)%nat
  /\ p (nth (j - base) l (NavigableString "")) = true
  /\ forall k, (base <= k < j)%nat ->
               p (nth (k - base) l (NavigableString "")) = false.
Proof.
  revert base. induction l as [|n l IH]; intros base; simpl.
  - split; [done | intros [? _]; lia].
  - destruct (p n) eqn:Hn.
    + split.
      * intros [= <-]. rewrite Nat.sub_diag. repeat split; [lia..|done|].
        intros k ?; lia.
      * intros (Hj & _ & Hk). f_equal.
        destruct (decide (base = j)) as [|Hne]; [done|].
        specialize (Hk base ltac:(lia)). rewrite Nat.sub_diag in Hk.
        congruence.
    + rewrite IH. split.
      * intros (Hj & Hp & Hk). split; [lia|].
        replace (j - base)%nat with (S (j - S base)) by lia.
        split; [done|]. intros k Hkj.
        destruct (decide (k = base)) as [->|Hne];
          [by rewrite Nat.sub_diag|].
        replace (k - base)%nat with (S (k - S base)) by lia.
        apply Hk; lia.
      * intros (Hj & Hp & Hk).
        assert (base <> j) by (intros ->; rewrite Nat.sub_diag in Hp; congruence).
        replace (j - base)%nat with (S (j - S base)) in Hp by lia.
        split; [lia|]. split; [done|]. intros k Hkj.
        specialize (Hk k ltac:(lia)).
        by replace (k - base)%nat with (S (k - S base)) in Hk by lia.
Qed.

Lemma first_index_None p l base :
  first_index p l base = None <-> forall n, In n l -> p n = false.
Proof.
  revert base. induction l as [|n l IH]; intros base; simpl.
  - split; [intros _ ? [] | done].
  - destruct (p n) eqn:Hn.
    + split; [done|]. intros H. specialize (H n ltac:(auto)). congruence.
    + rewrite IH. split.
      * intros H m [<-|Hm]; auto.
      * intros H m Hm. auto.
Qed.

(** [find_next] finds the structurally next tag of the name. *)
Lemma find_next_Some doc i name j :
  find_next doc i name = Some j <-> next_tag doc i name j.
Proof.
  unfold find_next, next_tag, at_. rewrite first_index_Some.
  rewrite length_drop. split.
  - intros (Hj & Hp & Hk). rewrite nth_drop in Hp.
    replace (S i + (j - S i))%nat with j in Hp by lia.
    split; [lia|]. split; [done|]. intros k Hkj.
    specialize (Hk k ltac:(lia)). rewrite nth_drop in Hk.
    by replace (S i + (k - S i))%nat with k in Hk by lia.
  - intros (Hj & Hp & Hk). split; [lia|]. rewrite nth_drop.
    replace (S i + (j - S i))%nat with j by lia.
    split; [done|]. intros k Hkj. rewrite nth_drop.
    replace (S i + (k - S i))%nat with k by lia. apply Hk. lia.
Qed.

Lemma find_next_None doc i name :
  find_next doc i name = None <->
  forall k, (i < k < length doc)%nat -> is_tag name (at_ doc k) = false.
Proof.
  unfold find_next, at_. rewrite first_index_None. split.
  - intros H k Hk. apply H.
    replace k with (S i + (k - S i))%nat by lia. rewrite <- nth_drop.
    apply nth_In. rewrite length_drop. lia.
  - intros H n Hn.
    destruct (In_nth _ _ (NavigableString "") Hn) as (k & Hk & <-).
    rewrite length_drop in Hk. rewrite nth_drop. apply H. lia.
Qed.

(** Induction on trees, with the hypothesis on every child. *)
Lemma node_rect_children (P : node -> Prop) :
  (forall s, P (NavigableString s)) ->
  (forall name attrs cs, Forall P cs -> P (Tag name attrs cs)) ->
  forall n, P n.
Proof.
  intros Hs Ht. fix IH 1. intros [s|name attrs cs]; [apply Hs|].
  apply Ht. induction cs as [|c cs IHcs]; constructor; [apply IH | apply IHcs].
Qed.

Lemma elements_nonempty n : (0 < length (elements n))%nat.
Proof. destruct n; simpl; lia. Qed.

(** In the listing of a tree, the elements that follow an element [i], as
    many as its subtree has, are that subtree: [descendant] speaks of the
    descendants. *)
Lemma elements_subtree root : forall i,
  (i < length (elements root))%nat ->
  take (length (elements (at_ (elements root) i))) (drop i (elements root))
  = elements (at_ (elements root) i).
Proof.
  unfold at_. induction root as [s|name attrs cs IH] using node_rect_children;
    intros i Hi.
  - simpl in *. by replace i with 0%nat by lia.
  - destruct i as [|i]; [simpl; by rewrite firstn_all|].
    change (elements (Tag name attrs cs))
      with (Tag name attrs cs :: flat_map elements cs) in *.
    simpl in Hi. apply Nat.succ_lt_mono in Hi.
    change (nth (S i) (?x :: ?l) ?d) with (nth i l d).
    change (drop (S i) (?x :: ?l)) with (drop i l).
    clear name attrs. revert i Hi.
    induction IH as [|c cs Hc _ IHcs]; intros i Hi; [simpl in Hi; lia|].
    change (flat_map elements (c :: cs))
      with (elements c ++ flat_map elements cs)%list in *.
    rewrite length_app in Hi.
    destruct (Nat.lt_ge_cases i (length (elements c))) as [Hlt|Hge].
    + rewrite app_nth1 by done.
      rewrite drop_app_le by lia.
      specialize (Hc i Hlt).
      set (k := length (elements (nth i (elements c) (NavigableString "")))) in *.
      assert (Hk : (k <= length (drop i (elements c)))%nat).
      { assert (Hl : length (take k (drop i (elements c))) = k)
          by (by rewrite Hc).
        rewrite length_take in Hl. lia. }
      by rewrite take_app_le.
    + rewrite app_nth2 by done.
      rewrite drop_app_ge by done.
      apply IHcs. lia.
Qed.

Lemma filter_seq_head (f : nat -> bool) n : forall s a rest,
  List.filter f (seq s n) = a :: rest ->
  (s <= a < s + n)%nat /\ f a = true
  /\ forall k, (s <= k < a)%nat -> f k = false.
Proof.
  induction n as [|n IH]; intros s a rest; simpl; [done|].
  destruct (f s) eqn:Hs.
  - intros [= <- _]. repeat split; [lia..|done|]. intros k ?; lia.
  - intros H. destruct (IH _ _ _ H) as (Ha & Hfa & Hk).
    split; [lia|]. split; [done|]. intros k Hka.
    destruct (decide (k = s)) as [->|]; [done|]. apply Hk. lia.
Qed.

Lemma filter_seq_nil (f : nat -> bool) n s :
  List.filter f (seq s n) = [] <-> forall k, (s <= k < s + n)%nat -> f k = false.
Proof.
  revert s. induction n as [|n IH]; intros s; simpl.
  - split; [intros _ k ?; lia | done].
  - destruct (f s) eqn:Hs.
    + split; [done|]. intros H. specialize (H s ltac:(lia)). congruence.
    + rewrite IH. split.
      * intros H k Hk. destruct (decide (k = s)) as [->|]; [done|].
        apply H. lia.
      * intros H k Hk. apply H. lia.
Qed.

(** The head of [find_all] is the first matching descendant. *)
Lemma find_all_head doc i p a rest :
  find_all doc i p = a :: rest -> first_match doc i p a.
Proof.
  unfold find_all, first_match, descendant. intros H.
  apply filter_seq_head in H as (Ha & Hp & Hk).
  split; [lia|]. split; [done|]. intros k Hk1 Hk2. apply Hk. lia.
Qed.

Lemma first_match_find_all doc i p a :
  first_match doc i p a -> exists rest, find_all doc i p = a :: rest.
Proof.
  intros (Ha & Hp & Hk).
  destruct (find_all doc i p) as [|b rest] eqn:H.
  - unfold find_all in H. rewrite filter_seq_nil in H.
    unfold descendant in Ha. specialize (H a ltac:(lia)). congruence.
  - exists rest. f_equal.
    apply find_all_head in H as (Hb & Hpb & Hkb).
    destruct (Nat.lt_trichotomy a b) as [Hlt|[->|Hlt]]; [|done|].
    + specialize (Hkb a Ha Hlt). congruence.
    + specialize (Hk b Hb Hlt). congruence.
Qed.

Lemma find_all_nil doc i p :
  find_all doc i p = [] <->
  forall j, descendant doc i j -> p (at_ doc j) = false.
Proof.
  unfold find_all, descendant. rewrite filter_seq_nil. split.
  - intros H j Hj. apply H. lia.
  - intros H j Hj. apply H. lia.
Qed.

Lemma elem_of_find_all doc i p j :
  In j (find_all doc i p) <-> descendant doc i j /\ p (at_ doc j) = true.
Proof.
  unfold find_all, descendant. rewrite filter_In, in_seq. split.
  - intros [? ?]. split; [lia | done].
  - intros [? ?]. split; [lia | done].
Qed.

End Bs4Facts.

(** ** Dictionaries *)

Module DictFacts.

Section Dict.
Context {V : Type}.
Implicit Types (d : list (string * V)) (k : string) (v : V).

Lemma mem_true k l : mem k l = true <-> In k l.
Proof.
  unfold mem. rewrite existsb_exists. split.
  - intros (x & Hx & Heq). apply String.eqb_eq in Heq. by subst.
  - intros H. exists k. split; [done | apply String.eqb_refl].
Qed.

Lemma mem_app k l1 l2 : mem k (l1 ++ l2)%list = mem k l1 || mem k l2.
Proof. apply existsb_app. Qed.

Lemma keys_dict_set k v d :
  keys (dict_set k v d)
  = if mem k (keys d) then keys d else (keys d ++ [k])%list.
Proof.
  induction d as [|[k' v'] d IH]; simpl; [done|].
  rewrite (String.eqb_sym k k').
  destruct (String.eqb k' k) eqn:Hk; simpl; [done|].
  unfold keys in *. rewrite IH. by destruct (mem k (map fst d)).
Qed.

Lemma dict_get_set k v d k' :
  dict_get k' (dict_set k v d)
  = if String.eqb k k' then Some v else dict_get k' d.
Proof.
  induction d as [|[k0 v0] d IH]; simpl.
  - by rewrite (String.eqb_sym k k').
  - destruct (String.eqb k0 k) eqn:H0; simpl.
    + apply String.eqb_eq in H0 as ->. by destruct (String.eqb k k').
    + rewrite IH. destruct (String.eqb k0 k') eqn:H1; [|done].
      apply String.eqb_eq in H1 as ->. by rewrite (String.eqb_sym k k'), H0.
Qed.

Lemma dict_get_None k d : dict_get k d = None <-> mem k (keys d) = false.
Proof.
  induction d as [|[k0 v0] d IH]; simpl; [done|].
  rewrite (String.eqb_sym k k0). destruct (String.eqb k0 k); simpl; [done|].
  apply IH.
Qed.

Lemma NoDup_keys_dict_set k v d :
  NoDup (keys d) -> NoDup (keys (dict_set k v d)).
Proof.
  intros Hd. rewrite keys_dict_set.
  destruct (mem k (keys d)) eqn:Hk; [done|].
  apply NoDup_app. split; [done|]. split; [|apply NoDup_singleton].
  intros x Hx ->%list_elem_of_singleton.
  apply list_elem_of_In, mem_true in Hx. congruence.
Qed.

Lemma dict_update_cons k v entries d :
  dict_update ((k, v) :: entries) d = dict_update entries (dict_set k v d).
Proof. reflexivity. Qed.

Lemma NoDup_keys_dict_update entries : forall d,
  NoDup (keys d) -> NoDup (keys (dict_update entries d)).
Proof.
  induction entries as [|[k v] es IH]; intros d Hd; [done|].
  rewrite dict_update_cons. apply IH. by apply NoDup_keys_dict_set.
Qed.

(** After a run of assignments a key holds the value assigned last. *)
Lemma dict_get_update entries : forall d k,
  dict_get k (dict_update entries d)
  = match last_value k entries with
    | Some v => Some v
    | None => dict_get k d
    end.
Proof.
  induction entries as [|[k0 v0] es IH]; intros d k; [done|].
  rewrite dict_update_cons, IH. simpl.
  destruct (last_value k es); [done|].
  rewrite dict_get_set. by destruct (String.eqb k0 k).
Qed.

Lemma filter_mem_absorb k l (xs : list string) :
  mem k l = true ->
  List.filter (fun y => negb (mem y l))
    (List.filter (fun y => negb (String.eqb y k)) xs)
  = List.filter (fun y => negb (mem y l)) xs.
Proof.
  intros Hk. induction xs as [|x xs IH]; simpl; [done|].
  destruct (String.eqb x k) eqn:Hx; simpl.
  - apply String.eqb_eq in Hx as ->. by rewrite Hk.
  - by rewrite IH.
Qed.

Lemma filter_mem_snoc k l (xs : list string) :
  List.filter (fun y => negb (mem y (l ++ [k])%list)) xs
  = List.filter (fun y => negb (mem y l))
      (List.filter (fun y => negb (String.eqb y k)) xs).
Proof.
  induction xs as [|x xs IH]; simpl; [done|].
  rewrite mem_app. simpl. rewrite orb_false_r.
  destruct (String.eqb x k) eqn:Hx; simpl.
  - by rewrite orb_true_r.
  - rewrite orb_false_r. by rewrite IH.
Qed.

(** The keys stay where they were first assigned. *)
Lemma keys_dict_update entries : forall d,
  keys (dict_update entries d)
  = (keys d
     ++ List.filter (fun y => negb (mem y (keys d)))
          (first_occurrences (map fst entries)))%list.
Proof.
  induction entries as [|[k v] es IH]; intros d.
  - simpl. by rewrite app_nil_r.
  - rewrite dict_update_cons, IH, keys_dict_set.
    destruct (mem k (keys d)) eqn:Hk; simpl; rewrite Hk; simpl.
    + by rewrite filter_mem_absorb.
    + rewrite <- app_assoc. simpl. by rewrite filter_mem_snoc.
Qed.

Lemma keys_dict_update_empty entries :
  keys (dict_update entries ([] : list (string * V)))
  = first_occurrences (map fst entries).
Proof.
  rewrite keys_dict_update. simpl.
  induction (first_occurrences (map fst entries)) as [|x xs IH]; simpl;
    [done | by rewrite IH].
Qed.

End Dict.

End DictFacts.

(** ** Strings *)

Module PyStrFacts.

Lemma append_nil_r s : (s ++ "")%string = s.
Proof.
  induction s as [|c s IH]; [done|].
  change (String c (s ++ "")%string = String c s). by rewrite IH.
Qed.

Lemma append_assoc s1 s2 s3 :
  ((s1 ++ s2) ++ s3)%string = (s1 ++ s2 ++ s3)%string.
Proof.
  induction s1 as [|c s1 IH]; [done|].
  change (String c ((s1 ++ s2) ++ s3)%string = String c (s1 ++ s2 ++ s3)%string).
  by rewrite IH.
Qed.

End PyStrFacts.

(** ** Computations *)

Module IoFacts.

Create HintDb io.

Lemma bind_Ok {A B} (m : io A) (k : A -> io B) w a w' :
  m w = (Ok a, w') -> bind m k w = k a w'.
Proof. unfold bind. by intros ->. Qed.

Lemma bind_Raise {A B} (m : io A) (k : A -> io B) w e w' :
  m w = (Raise e, w') -> bind m k w = (Raise e, w').
Proof. unfold bind. by intros ->. Qed.

Lemma bind_inv_Ok {A B} (m : io A) (k : A -> io B) w b w2 :
  bind m k w = (Ok b, w2) ->
  exists a w1, m w = (Ok a, w1) /\ k a w1 = (Ok b, w2).
Proof.
  unfold bind. destruct (m w) as [[a|e] w1]; [eauto | done].
Qed.

Lemma keeps_files_ret {A} (a : A) : keeps_files (ret a).
Proof. by intros w. Qed.

Lemma keeps_files_raise {A} e : keeps_files (@raise A e).
Proof. by intros w. Qed.

Lemma keeps_files_lift {A} (r : result A) : keeps_files (lift r).
Proof. by intros w. Qed.

Lemma keeps_files_print line : keeps_files (print line).
Proof. by intros w. Qed.

Lemma keeps_files_bind {A B} (m : io A) (k : A -> io B) :
  keeps_files m -> (forall a, keeps_files (k a)) -> keeps_files (bind m k).
Proof.
  intros Hm Hk w. unfold bind. specialize (Hm w).
  destruct (m w) as [[a|e] w1]; simpl in *; [|done].
  by rewrite Hk.
Qed.

Lemma keeps_files_for_each {A S} (body : S -> A -> io S) l :
  (forall s a, keeps_files (body s a)) ->
  forall s, keeps_files (for_each body l s).
Proof.
  intros Hb. induction l as [|a l IH]; intros s; simpl.
  - apply keeps_files_ret.
  - apply keeps_files_bind; auto.
Qed.

Lemma quiet_ret {A} (a : A) : quiet (ret a).
Proof. by intros w a' w' [= _ <-]. Qed.

Lemma quiet_raise {A} e : quiet (@raise A e).
Proof. by intros w a' w'. Qed.

Lemma quiet_lift {A} (r : result A) : quiet (lift r).
Proof. by intros w a' w' [= _ <-]. Qed.

Lemma quiet_bind {A B} (m : io A) (k : A -> io B) :
  quiet m -> (forall a, quiet (k a)) -> quiet (bind m k).
Proof.
  intros Hm Hk w b w2 H.
  apply bind_inv_Ok in H as (a & w1 & H1 & H2).
  apply Hm in H1 as ->. by apply Hk in H2.
Qed.

Lemma quiet_for_each {A S} (body : S -> A -> io S) l :
  (forall s a, quiet (body s a)) -> forall s, quiet (for_each body l s).
Proof.
  intros Hb. induction l as [|a l IH]; intros s; simpl.
  - apply quiet_ret.
  - apply quiet_bind; auto.
Qed.

#[export] Hint Resolve keeps_files_ret keeps_files_raise keeps_files_lift
  keeps_files_print keeps_files_bind keeps_files_for_each
  quiet_ret quiet_raise quiet_lift quiet_bind quiet_for_each : io.

(** A loop stops at the first iteration that raises. *)
Lemma for_each_app {A S} (body : S -> A -> io S) l1 l2 s w :
  for_each body (l1 ++ l2) s w
  = match for_each body l1 s w with
    | (Ok s', w') => for_each body l2 s' w'
    | (Raise e, w') => (Raise e, w')
    end.
Proof.
  revert s w. induction l1 as [|a l1 IH]; intros s w; simpl; [done|].
  unfold bind. destruct (body s a w) as [[s1|e] w1]; [apply IH | done].
Qed.

Lemma for_each_raise {A S} (body : S -> A -> io S) l1 a l2 s w s1 w1 e w2 :
  for_each body l1 s w = (Ok s1, w1) ->
  body s1 a w1 = (Raise e, w2) ->
  for_each body (l1 ++ a :: l2) s w = (Raise e, w2).
Proof.
  intros H1 H2. rewrite for_each_app, H1. simpl.
  by rewrite (bind_Raise _ _ _ _ _ H2).
Qed.

End IoFacts.

(** ** The program *)

Section ProgramFacts.

Variable web : string -> response.
Variable re_compile_ignorecase : string -> option (string -> bool).
Variable urljoin : string -> string -> string.
Variable float_str : PyFloat.float -> string.

Import IoFacts.

Lemma read_url_Page url root w :
  web url = Page root -> read_url web url w = (Ok (Some (parse root)), w).
Proof. unfold read_url. by intros ->. Qed.

Lemma keeps_files_read_url url : keeps_files (read_url web url).
Proof.
  unfold read_url. destruct (web url); auto with io.
Qed.

Lemma keeps_files_re_compile pattern :
  keeps_files (re_compile re_compile_ignorecase pattern).
Proof. unfold re_compile. destruct (re_compile_ignorecase pattern); auto with io. Qed.

Lemma quiet_re_compile pattern :
  quiet (re_compile re_compile_ignorecase pattern).
Proof. unfold re_compile. destruct (re_compile_ignorecase pattern); auto with io. Qed.

Lemma keeps_files_cell_int doc cell : keeps_files (cell_int doc cell).
Proof. unfold cell_int. destruct cell; auto with io. Qed.

Lemma quiet_cell_int doc cell : quiet (cell_int doc cell).
Proof. unfold cell_int. destruct cell; auto with io. Qed.

Lemma keeps_files_get_first_paragraph url :
  keeps_files (get_first_paragraph web url).
Proof.
  unfold get_first_paragraph.
  apply keeps_files_bind; [apply keeps_files_read_url|].
  intros [doc|]; auto with io.
Qed.

(** A page that cannot be opened makes [read_url] print and the caller
    raise: whoever returns has printed nothing. *)
Lemma quiet_get_first_paragraph url : quiet (get_first_paragraph web url).
Proof.
  intros w a w'. unfold get_first_paragraph, read_url, bind.
  destruct (web url); simpl; [|done]. by intros [= _ <-].
Qed.

Lemma keeps_files_get_population country :
  keeps_files (get_population web re_compile_ignorecase country).
Proof.
  unfold get_population.
  apply keeps_files_bind; [apply keeps_files_read_url|].
  intros [doc|]; [|auto with io].
  destruct (find_all doc 0%nat (is_tag "table")); [auto with io|].
  apply keeps_files_bind; [apply keeps_files_re_compile|].
  intros regex. destruct (find_all doc e (anchor_matching regex));
    [auto with io | apply keeps_files_cell_int].
Qed.

Lemma quiet_get_population country : quiet (get_population web re_compile_ignorecase country).
Proof.
  intros w a w'. unfold get_population, read_url.
  destruct (web population_url) as [root|reason]; [|done].
  rewrite (bind_Ok _ _ w (Some (parse root)) w) by done.
  destruct (find_all (parse root) 0%nat (is_tag "table")); [done|].
  apply quiet_bind; [apply quiet_re_compile|].
  intros regex. destruct (find_all (parse root) e (anchor_matching regex));
    [done | apply quiet_cell_int].
Qed.

#[local] Hint Resolve keeps_files_read_url keeps_files_re_compile
  quiet_re_compile keeps_files_cell_int quiet_cell_int
  keeps_files_get_first_paragraph quiet_get_first_paragraph
  keeps_files_get_population quiet_get_population : io.

Lemma keeps_files_country_loop_body doc countries country :
  keeps_files (country_loop_body web re_compile_ignorecase urljoin doc countries
     country).
Proof.
  unfold country_loop_body.
  destruct (get (at_ doc country) "href"); [|auto with io].
  destruct (negb _); [auto with io|].
  repeat (apply keeps_files_bind; [auto with io | intros ?]).
  auto with io.
Qed.

Lemma quiet_country_loop_body doc countries country :
  quiet (country_loop_body web re_compile_ignorecase urljoin doc countries
     country).
Proof.
  unfold country_loop_body.
  destruct (get (at_ doc country) "href"); [|auto with io].
  destruct (negb _); [auto with io|].
  repeat (apply quiet_bind; [auto with io | intros ?]).
  auto with io.
Qed.

Lemma keeps_files_collect_countries search_term :
  keeps_files (collect_countries web re_compile_ignorecase urljoin search_term).
Proof.
  unfold collect_countries.
  apply keeps_files_bind; [auto with io|]. intros [doc|]; [|auto with io].
  apply keeps_files_bind; [auto with io|]. intros regex.
  destruct (find doc 0%nat (table_with_id "thetable")); [|auto with io].
  apply keeps_files_for_each. intros. apply keeps_files_country_loop_body.
Qed.

(** *** The population page *)

Lemma lift_Ok {A} (r : result A) w a w' :
  lift r w = (Ok a, w') <-> r = Ok a /\ w' = w.
Proof. unfold lift. split; [by intros [= -> ->] | by intros [-> ->]]. Qed.

Lemma cell_int_Ok doc cell w n w' :
  cell_int doc cell w = (Ok n, w') <->
  exists td, cell = Some td /\ cell_value doc td = Ok n /\ w' = w.
Proof.
  unfold cell_int, cell_value. destruct cell as [td|]; simpl.
  - rewrite lift_Ok. split; [intros [? ?]; eauto | by intros (? & [= <-] & ? & ?)].
  - split; [done | by intros (? & ? & _)].
Qed.

(** C5, as the code has it: the population is the integer of the next
    cell after the first anchor of the first table whose string the
    country name is found in, and a name found in no anchor is an
    [IndexError]. *)
Theorem get_population_first_match country w root table search :
  web population_url = Page root ->
  first_match (parse root) 0%nat (is_tag "table") table ->
  re_compile_ignorecase country = Some search ->
  (forall a td n,
     first_match (parse root) table (anchor_matching search) a ->
     next_tag (parse root) a "td" td ->
     cell_value (parse root) td = Ok n ->
     get_population web re_compile_ignorecase country w = (Ok n, w))
  /\ ((forall j, descendant (parse root) table j ->
                 anchor_matching search (at_ (parse root) j) = false) ->
      get_population web re_compile_ignorecase country w
      = (Raise IndexError, w)).
Proof.
  intros Hweb Htable Hre.
  apply Bs4Facts.first_match_find_all in Htable as [tables Htable].
  unfold get_population.
  rewrite (bind_Ok _ _ _ _ _ (read_url_Page _ _ w Hweb)), Htable.
  unfold re_compile. rewrite Hre.
  rewrite (bind_Ok _ _ w search w) by done.
  split.
  - intros a td n Ha Htd Hn.
    apply Bs4Facts.first_match_find_all in Ha as [rest ->].
    apply cell_int_Ok. exists td. by rewrite Bs4Facts.find_next_Some.
  - intros Hnone. apply Bs4Facts.find_all_nil in Hnone. by rewrite Hnone.
Qed.

(** *** The first paragraph *)

Lemma star_dot_newline s :
  Re.match_here [Re.Star Re.Dot; Re.One (Re.Chr PyStr.newline)] s = true
  <-> In PyStr.newline (list_ascii_of_string s).
Proof.
  induction s as [|c s IH]; simpl in *; [split; [done | intros []]|].
  rewrite orb_true_iff, !andb_true_iff, IH, negb_true_iff.
  destruct (Ascii.eqb_spec c PyStr.newline) as [->|Hne].
  - split; [by left | by left].
  - split.
    + intros [[? _]|[_ ?]]; [done | by right].
    + intros [?|?]; [congruence | by right].
Qed.

(** What [r'..*\n'] accepts: a text whose first character is not a line
    feed and which has a line feed further on. *)
Lemma paragraph_pattern_matches s :
  Re.match_ paragraph_pattern s = true <->
  exists c rest, s = String c rest /\ c <> PyStr.newline
                 /\ In PyStr.newline (list_ascii_of_string rest).
Proof.
  unfold Re.match_, paragraph_pattern.
  destruct s as [|c rest].
  - split; [done | by intros (? & ? & ? & _)].
  - change (Re.match_here (Re.One Re.Dot :: ?r) (String c rest))
      with (Re.atom_matches Re.Dot c && Re.match_here r rest).
    rewrite andb_true_iff, star_dot_newline. simpl. rewrite negb_true_iff.
    split.
    + intros [Hc Hin]. exists c, rest. split; [done|]. split; [|done].
      intros ->. by rewrite Ascii.eqb_refl in Hc.
    + intros (c' & rest' & [= <- <-] & Hc & Hin). split; [|done].
      by apply Ascii.eqb_neq.
Qed.

(** The paragraph returned is the first one the pattern accepts; when
    there is none, [None] is returned. *)
Lemma get_first_paragraph_Page url root w :
  web url = Page root ->
  get_first_paragraph web url w
  = (Ok (option_map (fun p_tag => get_text (at_ (parse root) p_tag))
           (List.find
              (fun p_tag =>
                 Re.match_ paragraph_pattern (get_text (at_ (parse root) p_tag)))
              (find_all (parse root) 0%nat (is_tag "p")))), w).
Proof.
  intros Hweb. unfold get_first_paragraph.
  by rewrite (bind_Ok _ _ _ _ _ (read_url_Page _ _ w Hweb)).
Qed.

(** *** One anchor *)

Lemma country_loop_body_rejected doc countries country w href :
  get (at_ doc country) "href" = Some href ->
  PyStr.startswith href detail_prefix = false ->
  country_loop_body web re_compile_ignorecase urljoin doc countries country w
  = (Ok countries, w).
Proof. intros Hh Hp. unfold country_loop_body. by rewrite Hh, Hp. Qed.

(** An anchor without a link target stops the run: [None] has no
    [startswith]. *)
Lemma country_loop_body_no_href doc countries country w :
  get (at_ doc country) "href" = None ->
  country_loop_body web re_compile_ignorecase urljoin doc countries country w
  = (Raise AttributeError, w).
Proof. intros Hh. unfold country_loop_body. by rewrite Hh. Qed.

Lemma country_loop_body_entry doc countries country w entry :
  country_entry web re_compile_ignorecase urljoin doc w country entry ->
  country_loop_body web re_compile_ignorecase urljoin doc countries country w
  = (Ok (dict_set (fst entry) (snd entry) countries), w).
Proof.
  intros (href & td1 & td2 & n_cases & n_deaths & paragraph & n_population
          & rate_c & rate_d & Hh & Hp & Htd1 & Htd2 & Hc & Hd & Hfp & Hpop
          & Hrc & Hrd & ->).
  apply Bs4Facts.find_next_Some in Htd1, Htd2.
  unfold country_loop_body. rewrite Hh, Hp, Htd1, Htd2. change (negb true) with false. cbv iota.
  assert (H1 : cell_int doc (Some td1) w = (Ok n_cases, w))
    by (apply cell_int_Ok; eauto).
  assert (H2 : cell_int doc (Some td2) w = (Ok n_deaths, w))
    by (apply cell_int_Ok; eauto).
  rewrite (bind_Ok _ _ _ _ _ H1), (bind_Ok _ _ _ _ _ H2).
  rewrite (bind_Ok _ _ _ _ _ Hfp), (bind_Ok _ _ _ _ _ Hpop).
  rewrite Hrc, Hrd. reflexivity.
Qed.

Lemma country_loop_body_inv doc countries country w href countries' w' :
  get (at_ doc country) "href" = Some href ->
  PyStr.startswith href detail_prefix = true ->
  country_loop_body web re_compile_ignorecase urljoin doc countries country w
  = (Ok countries', w') ->
  w' = w
  /\ exists entry,
       country_entry web re_compile_ignorecase urljoin doc w country entry
       /\ countries' = dict_set (fst entry) (snd entry) countries.
Proof.
  intros Hh Hp Hrun.
  assert (Hw : w' = w) by (by apply quiet_country_loop_body in Hrun).
  split; [done|]. subst w'.
  unfold country_loop_body in Hrun. rewrite Hh, Hp in Hrun.
  change (negb true) with false in Hrun. cbv iota in Hrun.
  apply bind_inv_Ok in Hrun as (n_cases & w1 & H1 & Hrun).
  apply cell_int_Ok in H1 as (td1 & Htd1 & Hc & ->).
  rewrite Htd1 in Hrun.
  apply bind_inv_Ok in Hrun as (n_deaths & w2 & H2 & Hrun).
  apply cell_int_Ok in H2 as (td2 & Htd2 & Hd & ->).
  apply bind_inv_Ok in Hrun as (paragraph & w3 & Hfp & Hrun).
  assert (w3 = w) as -> by (by apply quiet_get_first_paragraph in Hfp).
  apply bind_inv_Ok in Hrun as (n_population & w4 & Hpop & Hrun).
  assert (w4 = w) as -> by (by apply quiet_get_population in Hpop).
  apply bind_inv_Ok in Hrun as (rate_c & w5 & Hrc & Hrun).
  apply lift_Ok in Hrc as [Hrc ->].
  apply bind_inv_Ok in Hrun as (rate_d & w6 & Hrd & Hrun).
  apply lift_Ok in Hrd as [Hrd ->].
  injection Hrun as <-.
  eexists (_, _). split; [|reflexivity].
  exists href, td1, td2, n_cases, n_deaths, paragraph, n_population,
    rate_c, rate_d.
  rewrite <- !Bs4Facts.find_next_Some. by repeat split.
Qed.

(** C4: an anchor whose link target lacks the prefix of the country pages
    leaves the dictionary as it is; an anchor that has it returns exactly
    when it has an entry, whose cases and deaths are the integers of the
    two next cells without their separators, and that entry is stored. *)
Theorem country_loop_body_filter_and_cells doc countries country w href :
  get (at_ doc country) "href" = Some href ->
  (PyStr.startswith href detail_prefix = false ->
   country_loop_body web re_compile_ignorecase urljoin doc countries
     country w = (Ok countries, w))
  /\ (PyStr.startswith href detail_prefix = true ->
      forall countries' w',
        country_loop_body web re_compile_ignorecase urljoin doc countries
          country w = (Ok countries', w')
        <-> w' = w
            /\ exists entry,
                 country_entry web re_compile_ignorecase urljoin doc w
                   country entry
                 /\ countries' = dict_set (fst entry) (snd entry) countries).
Proof.
  intros Hh. split.
  - intros Hp. by apply country_loop_body_rejected with (href := href).
  - intros Hp countries' w'. split.
    + by apply country_loop_body_inv with (href := href).
    + intros (-> & entry & He & ->). by apply country_loop_body_entry.
Qed.

(** *** The loop *)

Lemma for_each_entries doc links : forall countries w entries,
  Forall (has_href doc) links ->
  Forall2 (country_entry web re_compile_ignorecase urljoin doc w)
    (List.filter (accepted doc) links) entries ->
  for_each (country_loop_body web re_compile_ignorecase urljoin doc) links
    countries w
  = (Ok (dict_update entries countries), w).
Proof.
  induction links as [|c links IH]; intros countries w entries Hh He.
  - simpl in He. by inversion He.
  - inversion Hh as [|? ? [href Hc] Hrest]; subst.
    simpl in He. unfold accepted in He at 1. rewrite Hc in He.
    change (for_each ?b (c :: links) countries)
      with (bind (b countries c) (fun s' => for_each b links s')).
    destruct (PyStr.startswith href detail_prefix) eqn:Hp.
    + inversion He as [|? entry ? entries' Hentry He']; subst.
      rewrite (bind_Ok _ _ _ _ _
                 (country_loop_body_entry _ countries _ _ _ Hentry)).
      destruct entry as [k v]. rewrite DictFacts.dict_update_cons.
      by apply IH.
    + rewrite (bind_Ok _ _ _ _ _
                 (country_loop_body_rejected _ countries _ w _ Hc Hp)).
      by apply IH.
Qed.

Lemma for_each_inv doc links : forall countries w countries' w',
  for_each (country_loop_body web re_compile_ignorecase urljoin doc) links
    countries w = (Ok countries', w') ->
  w' = w
  /\ Forall (has_href doc) links
  /\ exists entries,
       Forall2 (country_entry web re_compile_ignorecase urljoin doc w)
         (List.filter (accepted doc) links) entries
       /\ countries' = dict_update entries countries.
Proof.
  induction links as [|c links IH]; intros countries w countries' w' Hrun.
  - injection Hrun as <- <-. split; [done|]. split; [done|].
    exists []. by split.
  - change (for_each ?b (c :: links) countries)
      with (bind (b countries c) (fun s' => for_each b links s')) in Hrun.
    apply bind_inv_Ok in Hrun as (countries1 & w1 & Hbody & Hrun).
    assert (w1 = w) as -> by (by apply quiet_country_loop_body in Hbody).
    apply IH in Hrun as (-> & Hrest & entries & He & ->).
    split; [done|].
    destruct (get (at_ doc c) "href") as [href|] eqn:Hc;
      [|by unfold country_loop_body in Hbody; rewrite Hc in Hbody].
    split; [constructor; [by exists href | done]|].
    simpl. unfold accepted at 1. rewrite Hc.
    destruct (PyStr.startswith href detail_prefix) eqn:Hp.
    + apply country_loop_body_inv with (href := href) in Hbody
        as (_ & entry & Hentry & ->); [|done..].
      exists (entry :: entries). split; [by constructor|].
      by destruct entry.
    + rewrite (country_loop_body_rejected _ _ _ _ _ Hc Hp) in Hbody.
      injection Hbody as <-. by exists entries.
Qed.

(** The scraping returns the dictionary of the entries of the accepted
    anchors, assigned in the order of the document. *)
Lemma collect_countries_entries search_term w root table search entries :
  web pandemic_url = Page root ->
  first_match (parse root) 0%nat (table_with_id "thetable") table ->
  re_compile_ignorecase search_term = Some search ->
  Forall (has_href (parse root))
    (find_all (parse root) table (anchor_matching search)) ->
  Forall2 (country_entry web re_compile_ignorecase urljoin (parse root) w)
    (List.filter (accepted (parse root))
       (find_all (parse root) table (anchor_matching search)))
    entries ->
  collect_countries web re_compile_ignorecase urljoin search_term w
  = (Ok (dict_update entries []), w).
Proof.
  intros Hweb Htable Hre Hh He.
  apply Bs4Facts.first_match_find_all in Htable as [tables Htable].
  unfold collect_countries.
  rewrite (bind_Ok _ _ _ _ _ (read_url_Page _ _ w Hweb)).
  unfold re_compile. rewrite Hre.
  rewrite (bind_Ok _ _ w search w) by done.
  unfold Bs4.find. rewrite Htable.
  change (head (table :: tables)) with (Some table). cbv iota.
  by apply for_each_entries.
Qed.

Lemma collect_countries_raise search_term w root table search l1 c l2
    countries w1 e w2 :
  web pandemic_url = Page root ->
  first_match (parse root) 0%nat (table_with_id "thetable") table ->
  re_compile_ignorecase search_term = Some search ->
  find_all (parse root) table (anchor_matching search) = (l1 ++ c :: l2)%list ->
  for_each (country_loop_body web re_compile_ignorecase urljoin (parse root))
    l1 [] w = (Ok countries, w1) ->
  country_loop_body web re_compile_ignorecase urljoin (parse root) countries
    c w1 = (Raise e, w2) ->
  collect_countries web re_compile_ignorecase urljoin search_term w
  = (Raise e, w2).
Proof.
  intros Hweb Htable Hre Hlinks Hl1 Hc.
  apply Bs4Facts.first_match_find_all in Htable as [tables Htable].
  unfold collect_countries.
  rewrite (bind_Ok _ _ _ _ _ (read_url_Page _ _ w Hweb)).
  unfold re_compile. rewrite Hre.
  rewrite (bind_Ok _ _ w search w) by done.
  unfold Bs4.find. rewrite Htable.
  change (head (table :: tables)) with (Some table). cbv iota. rewrite Hlinks.
  by apply for_each_raise with (s1 := countries) (w1 := w1).
Qed.

(** Every scraping that returns is of that kind. *)
Lemma collect_countries_inv search_term w countries w' :
  collect_countries web re_compile_ignorecase urljoin search_term w
    = (Ok countries, w') ->
  w' = w
  /\ exists root table search entries,
       web pandemic_url = Page root
       /\ first_match (parse root) 0%nat (table_with_id "thetable") table
       /\ re_compile_ignorecase search_term = Some search
       /\ Forall (has_href (parse root))
            (find_all (parse root) table (anchor_matching search))
       /\ Forall2
            (country_entry web re_compile_ignorecase urljoin (parse root) w)
            (List.filter (accepted (parse root))
               (find_all (parse root) table (anchor_matching search)))
            entries
       /\ countries = dict_update entries [].
Proof.
  unfold collect_countries, read_url. intros Hrun.
  destruct (web pandemic_url) as [root|reason] eqn:Hweb; [|done].
  rewrite (bind_Ok _ _ w (Some (parse root)) w) in Hrun by done.
  unfold re_compile in Hrun.
  destruct (re_compile_ignorecase search_term) as [search|] eqn:Hre; [|done].
  rewrite (bind_Ok _ _ w search w) in Hrun by done.
  unfold Bs4.find in Hrun.
  destruct (find_all (parse root) 0%nat (table_with_id "thetable"))
    as [|table tables] eqn:Htable; [done|].
  change (head (table :: tables)) with (Some table) in Hrun. cbv iota in Hrun.
  apply for_each_inv in Hrun as (-> & Hh & entries & He & ->).
  split; [done|]. exists root, table, search, entries.
  split; [done|]. split; [by apply Bs4Facts.find_all_head in Htable|].
  by repeat split.
Qed.

(** *** The summary file *)

Lemma create_summary_file_exists search_term countries w old :
  files w !! summary_name search_term = Some old ->
  create_summary_file float_str search_term countries w
  = (Raise FileExistsError, w).
Proof.
  intros Hold. unfold create_summary_file, bind, open_x. by rewrite Hold.
Qed.

Lemma dict_get_In (countries : list (string * country_info)) k v :
  NoDup (keys countries) -> In (k, v) countries ->
  dict_get k countries = Some v.
Proof.
  induction countries as [|[k0 v0] d IH]; simpl; [done|].
  intros Hnd [Heq|Hin].
  - injection Heq as -> ->. by rewrite String.eqb_refl.
  - apply NoDup_cons in Hnd as [Hk0 Hnd].
    destruct (String.eqb_spec k0 k) as [->|Hne]; [|by apply IH].
    exfalso. apply Hk0. apply list_elem_of_In.
    change k with (fst (k, v)). by apply in_map.
Qed.

Lemma write_blocks name countries : forall entries w content,
  (forall k v, In (k, v) entries -> dict_get k countries = Some v) ->
  files w !! name = Some content ->
  for_each
    (fun (_ : unit) country =>
       match dict_get country countries with
       | None => raise KeyError
       | Some info => write name (summary_block float_str country info)
       end)
    (map fst entries) tt w
  = (Ok tt, {| files := <[name := (content ++ report float_str entries)%string]>
                          (files w);
               console := console w |}).
Proof.
  induction entries as [|[k v] entries IH]; intros w content Hget Hc.
  - simpl. unfold ret. f_equal. destruct w as [fs out]. simpl in *. f_equal.
    rewrite PyStrFacts.append_nil_r. symmetry. by apply insert_id.
  - change (for_each ?b (map fst ((k, v) :: entries)) tt)
      with (bind (b tt k) (fun s' => for_each b (map fst entries) s')).
    cbv beta. rewrite (Hget k v) by (by left).
    unfold bind at 1, write at 1.
    rewrite (IH _ (content ++ summary_block float_str k v)%string).
    + simpl. f_equal. f_equal.
      rewrite PyStrFacts.append_assoc.
      apply map_eq. intros i. destruct (decide (i = name)) as [->|Hne].
      * by rewrite !lookup_insert_eq.
      * by rewrite !lookup_insert_ne, lookup_alter_ne.
    + intros k' v' Hin. apply Hget. by right.
    + simpl. by rewrite lookup_alter_eq, Hc.
Qed.

(** A file that is not there is created and holds the blocks of the
    countries, in the order of the dictionary. *)
Lemma create_summary_file_fresh search_term countries w :
  NoDup (keys countries) ->
  files w !! summary_name search_term = None ->
  create_summary_file float_str search_term countries w
  = (Ok tt, {| files := <[summary_name search_term := report float_str countries]>
                          (files w);
               console := console w |}).
Proof.
  intros Hnd Hnone. unfold create_summary_file, bind at 1, open_x.
  rewrite Hnone.
  rewrite (write_blocks _ countries countries _ "").
  - simpl. by rewrite insert_insert_eq.
  - intros k v. by apply dict_get_In.
  - simpl. by rewrite lookup_insert_eq.
Qed.

(** *** The run *)

Lemma entries_names doc w links entries :
  Forall2 (country_entry web re_compile_ignorecase urljoin doc w) links entries ->
  map fst entries = map (fun c => get_text (at_ doc c)) links.
Proof.
  induction 1 as [|c entry links entries Hentry _ IH]; [done|].
  simpl. rewrite IH. f_equal.
  destruct Hentry as (? & ? & ? & ? & ? & ? & ? & ? & ? & Hrest).
  by destruct Hrest as (_ & _ & _ & _ & _ & _ & _ & _ & _ & _ & ->).
Qed.

Lemma country_loop_body_enrichment_fails doc countries country w href
    td1 td2 n_cases n_deaths e w2 :
  get (at_ doc country) "href" = Some href ->
  PyStr.startswith href detail_prefix = true ->
  next_tag doc country "td" td1 ->
  next_tag doc td1 "td" td2 ->
  cell_value doc td1 = Ok n_cases ->
  cell_value doc td2 = Ok n_deaths ->
  get_first_paragraph web (urljoin "https://en.wikipedia.org" href) w
    = (Raise e, w2)
  \/ (exists paragraph,
        get_first_paragraph web (urljoin "https://en.wikipedia.org" href) w
          = (Ok paragraph, w)
        /\ get_population web re_compile_ignorecase
             (get_text (at_ doc country)) w = (Raise e, w2)) ->
  country_loop_body web re_compile_ignorecase urljoin doc countries country w
  = (Raise e, w2).
Proof.
  intros Hh Hp Htd1 Htd2 Hc Hd Hfail.
  apply Bs4Facts.find_next_Some in Htd1, Htd2.
  unfold country_loop_body. rewrite Hh, Hp, Htd1, Htd2.
  change (negb true) with false. cbv iota.
  assert (H1 : cell_int doc (Some td1) w = (Ok n_cases, w))
    by (apply cell_int_Ok; eauto).
  assert (H2 : cell_int doc (Some td2) w = (Ok n_deaths, w))
    by (apply cell_int_Ok; eauto).
  rewrite (bind_Ok _ _ _ _ _ H1), (bind_Ok _ _ _ _ _ H2).
  destruct Hfail as [Hfp|(paragraph & Hfp & Hpop)].
  - by rewrite (bind_Raise _ _ _ _ _ Hfp).
  - rewrite (bind_Ok _ _ _ _ _ Hfp). by rewrite (bind_Raise _ _ _ _ _ Hpop).
Qed.

(** C7, as the code has it: when the paragraph fetch or the population
    lookup of one accepted country raises, the exception ends the run:
    there is no dictionary, the countries already processed are lost and
    no file is written. *)
Theorem enrichment_failure_aborts_run search_term w root table search
    l1 country l2 countries href td1 td2 n_cases n_deaths e w2 :
  web pandemic_url = Page root ->
  first_match (parse root) 0%nat (table_with_id "thetable") table ->
  re_compile_ignorecase search_term = Some search ->
  find_all (parse root) table (anchor_matching search)
    = (l1 ++ country :: l2)%list ->
  for_each (country_loop_body web re_compile_ignorecase urljoin (parse root))
    l1 [] w = (Ok countries, w) ->
  get (at_ (parse root) country) "href" = Some href ->
  PyStr.startswith href detail_prefix = true ->
  next_tag (parse root) country "td" td1 ->
  next_tag (parse root) td1 "td" td2 ->
  cell_value (parse root) td1 = Ok n_cases ->
  cell_value (parse root) td2 = Ok n_deaths ->
  get_first_paragraph web (urljoin "https://en.wikipedia.org" href) w
    = (Raise e, w2)
  \/ (exists paragraph,
        get_first_paragraph web (urljoin "https://en.wikipedia.org" href) w
          = (Ok paragraph, w)
        /\ get_population web re_compile_ignorecase
             (get_text (at_ (parse root) country)) w = (Raise e, w2)) ->
  collect_countries web re_compile_ignorecase urljoin search_term w
    = (Raise e, w2)
  /\ country_coronavirus_stats web re_compile_ignorecase urljoin float_str
       search_term w = (Raise e, w2)
  /\ files w2 = files w.
Proof.
  intros Hweb Htable Hre Hlinks Hl1 Hh Hp Htd1 Htd2 Hc Hd Hfail.
  assert (Hcollect :
    collect_countries web re_compile_ignorecase urljoin search_term w
    = (Raise e, w2)).
  { eapply collect_countries_raise; try done.
    by eapply country_loop_body_enrichment_fails. }
  split; [done|]. split.
  - unfold country_coronavirus_stats. by rewrite (bind_Raise _ _ _ _ _ Hcollect).
  - pose proof (keeps_files_collect_countries search_term w) as Hf.
    by rewrite Hcollect in Hf.
Qed.

(** C8: when a file of the name of the summary is there, writing the
    report raises [FileExistsError] and the run fails, with every file as
    it was. *)
Theorem summary_file_never_overwritten search_term w old :
  files w !! summary_name search_term = Some old ->
  (forall countries,
     create_summary_file float_str search_term countries w
     = (Raise FileExistsError, w))
  /\ exists e w',
       country_coronavirus_stats web re_compile_ignorecase urljoin float_str
         search_term w = (Raise e, w')
       /\ files w' = files w
       /\ files w' !! summary_name search_term = Some old
       /\ (is_ok (fst (collect_countries web re_compile_ignorecase urljoin
                         search_term w)) = true ->
           e = FileExistsError).
Proof.
  intros Hold. split.
  - intros countries. by apply create_summary_file_exists with (old := old).
  - unfold country_coronavirus_stats, bind.
    pose proof (keeps_files_collect_countries search_term w) as Hf.
    destruct (collect_countries web re_compile_ignorecase urljoin
                search_term w) as [[countries|e] w1]; simpl in Hf.
    + exists FileExistsError, w1.
      rewrite (create_summary_file_exists _ _ _ old) by (by rewrite Hf).
      by rewrite Hf.
    + exists e, w1. by rewrite Hf.
Qed.

(** C9, as the code has it: the keys of the dictionary are the names of
    the accepted anchors, each once, where it first occurs; the value of a
    name is the entry of its last accepted anchor; the report lists the
    blocks in the order of the keys. *)
Theorem report_order_and_last_match search_term w root table search entries :
  web pandemic_url = Page root ->
  first_match (parse root) 0%nat (table_with_id "thetable") table ->
  re_compile_ignorecase search_term = Some search ->
  Forall (has_href (parse root))
    (find_all (parse root) table (anchor_matching search)) ->
  Forall2 (country_entry web re_compile_ignorecase urljoin (parse root) w)
    (List.filter (accepted (parse root))
       (find_all (parse root) table (anchor_matching search)))
    entries ->
  let countries := dict_update entries [] in
  collect_countries web re_compile_ignorecase urljoin search_term w
    = (Ok countries, w)
  /\ keys countries
     = first_occurrences
         (map (fun c => get_text (at_ (parse root) c))
            (List.filter (accepted (parse root))
               (find_all (parse root) table (anchor_matching search))))
  /\ NoDup (keys countries)
  /\ (forall k, dict_get k countries = last_value k entries)
  /\ (files w !! summary_name search_term = None ->
      country_coronavirus_stats web re_compile_ignorecase urljoin float_str
        search_term w
      = (Ok tt, {| files := <[summary_name search_term
                              := report float_str countries]> (files w);
                   console := console w |})).
Proof.
  intros Hweb Htable Hre Hh He countries.
  assert (Hcollect :
    collect_countries web re_compile_ignorecase urljoin search_term w
    = (Ok countries, w)) by (by eapply collect_countries_entries).
  assert (Hnd : NoDup (keys countries)).
  { apply DictFacts.NoDup_keys_dict_update. constructor. }
  split; [done|]. split.
  { unfold countries. rewrite DictFacts.keys_dict_update_empty.
    by rewrite (entries_names _ _ _ _ He). }
  split; [done|]. split.
  { intros k. unfold countries. rewrite DictFacts.dict_get_update.
    by destruct (last_value k entries). }
  intros Hnone. unfold country_coronavirus_stats.
  rewrite (bind_Ok _ _ _ _ _ Hcollect).
  by apply create_summary_file_fresh.
Qed.


End ProgramFacts.

(** ** The program on the fixtures *)

Ltac by_computation := vm_compute; reflexivity.
Ltac first_match_by_computation :=
  eapply Bs4Facts.find_all_head; vm_compute; reflexivity.
Ltac next_tag_by_computation :=
  apply Bs4Facts.find_next_Some; vm_compute; reflexivity.
Ltac entry_by_computation :=
  do 9 eexists;
  repeat match goal with |- _ /\ _ => split end;
  first [ next_tag_by_computation | reflexivity ].

(** The end-to-end scenario of the specification. *)
Example run_canada :
  country_coronavirus_stats Fixture.web Fixture.literal_ignorecase
    Fixture.join_path Fixture.repr_tenths "Canada" Fixture.empty_world
  = (Ok tt,
     {| files :=
          {[ "Canadasummary.txt" :=
               "Country: Canada
Population:                    50,000,000
Total Confirmed Cases:            100,000
Total Deaths:                       1,000
Cases per 100,000 people:             200.0
Deaths per 100,000 people:              2.0
The pandemic reached Canada in January 2020.


" ]};
        console := [] |}).
Proof. by_computation. Qed.

Lemma country_loop_body_filter_and_cells_witness :
  country_loop_body Fixture.web Fixture.literal_ignorecase Fixture.join_path
    (parse Fixture.pandemic_page) [] 6%nat Fixture.empty_world
  = (Ok [], Fixture.empty_world)
  /\ exists entry,
       country_entry Fixture.web Fixture.literal_ignorecase Fixture.join_path
         (parse Fixture.pandemic_page) Fixture.empty_world 10%nat entry
       /\ [Fixture.canada_entry] = dict_set (fst entry) (snd entry) [].
Proof.
  split.
  - apply (proj1 (country_loop_body_filter_and_cells Fixture.web
                    Fixture.literal_ignorecase Fixture.join_path
                    (parse Fixture.pandemic_page) [] 6%nat Fixture.empty_world
                    "/wiki/North_America" eq_refl)).
    reflexivity.
  - apply (proj2 (country_loop_body_filter_and_cells Fixture.web
                    Fixture.literal_ignorecase Fixture.join_path
                    (parse Fixture.pandemic_page) [] 10%nat Fixture.empty_world
                    "/wiki/2020_coronavirus_pandemic_in_Canada" eq_refl)
             eq_refl [Fixture.canada_entry] Fixture.empty_world).
    vm_compute. reflexivity.
Defined.

Lemma get_population_first_match_witness :
  get_population Fixture.web Fixture.literal_ignorecase "Canada"
    Fixture.empty_world
  = (Ok 50000000, Fixture.empty_world).
Proof.
  eapply (proj1 (get_population_first_match Fixture.web
                   Fixture.literal_ignorecase "Canada" Fixture.empty_world
                   Fixture.population_page 1%nat _ eq_refl _ eq_refl)
            8%nat 10%nat).
  - first_match_by_computation.
  - next_tag_by_computation.
  - by_computation.
  Unshelve. first_match_by_computation.
Defined.

(** C5 fails on a name the population page does not list: the failure is
    the [IndexError] of [country_row[0]], not a [NotFoundError]. *)
Lemma get_population_no_match_IndexError :
  get_population Fixture.web Fixture.literal_ignorecase "Atlantis"
    Fixture.empty_world
  = (Raise IndexError, Fixture.empty_world)
  /\ fst (get_population Fixture.web Fixture.literal_ignorecase "Atlantis"
            Fixture.empty_world)
     <> Raise (Custom "NotFoundError").
Proof. split; [by_computation | vm_compute; congruence]. Qed.

(** C6 on a page whose only paragraph, "Atlantis reported twelve cases.",
    does not end with a line feed: the paragraph is not empty, and what is
    returned is [None]. *)
Theorem get_first_paragraph_unterminated :
  map (fun p_tag => get_text (at_ (parse Fixture.atlantis_page) p_tag))
    (find_all (parse Fixture.atlantis_page) 0%nat (is_tag "p"))
  = ["Atlantis reported twelve cases."]
  /\ get_first_paragraph Fixture.web Fixture.atlantis_url Fixture.empty_world
     = (Ok None, Fixture.empty_world).
Proof. split; by_computation. Qed.

(** On a page whose first paragraph holds three spaces and a line feed, that
    blank paragraph is the one returned. *)
Example get_first_paragraph_blank :
  get_first_paragraph (fun _ => Page Fixture.blank_first_page) "any"
    Fixture.empty_world
  = (Ok (Some ("   " ++ Fixture.nl)%string), Fixture.empty_world).
Proof. by_computation. Qed.

(** A page that cannot be opened is reported on the console, and the
    caller then fails on the [None] it got. *)
Example get_first_paragraph_unreachable :
  get_first_paragraph Fixture.web "https://en.wikipedia.org/wiki/x"
    Fixture.empty_world
  = (Raise TypeError,
     {| files := ∅;
        console := [("Error opening url: https://en.wikipedia.org/wiki/x"
                     ++ Fixture.nl ++ "HTTP Error 404: Not Found")%string] |}).
Proof. by_computation. Qed.

(** C7 fails on the search term "a": it matches Canada, which has a
    population, and Atlantis, which has none.  The lookup for Atlantis
    raises, and with it the run: no dictionary, no record for Canada, no
    file. *)
Lemma one_failure_loses_the_batch :
  collect_countries Fixture.web Fixture.literal_ignorecase Fixture.join_path
    "Canada" Fixture.empty_world
  = (Ok [Fixture.canada_entry], Fixture.empty_world)
  /\ get_population Fixture.web Fixture.literal_ignorecase "Atlantis"
       Fixture.empty_world
     = (Raise IndexError, Fixture.empty_world)
  /\ collect_countries Fixture.web Fixture.literal_ignorecase Fixture.join_path
       "a" Fixture.empty_world
     = (Raise IndexError, Fixture.empty_world)
  /\ country_coronavirus_stats Fixture.web Fixture.literal_ignorecase
       Fixture.join_path Fixture.repr_tenths "a" Fixture.empty_world
     = (Raise IndexError, Fixture.empty_world).
Proof.
  split; [by_computation|]. split; [by_computation|].
  split; by_computation.
Qed.

Lemma enrichment_failure_aborts_run_witness :
  collect_countries Fixture.web Fixture.literal_ignorecase Fixture.join_path
    "a" Fixture.empty_world
  = (Raise IndexError, Fixture.empty_world)
  /\ country_coronavirus_stats Fixture.web Fixture.literal_ignorecase
       Fixture.join_path Fixture.repr_tenths "a" Fixture.empty_world
     = (Raise IndexError, Fixture.empty_world)
  /\ files Fixture.empty_world = files Fixture.empty_world.
Proof.
  eapply (enrichment_failure_aborts_run Fixture.web Fixture.literal_ignorecase
            Fixture.join_path Fixture.repr_tenths "a" Fixture.empty_world
            Fixture.pandemic_page 3%nat _ [6; 10]%nat 18%nat []
            [Fixture.canada_entry]
            "/wiki/2020_coronavirus_pandemic_in_Atlantis"
            20%nat 22%nat 12 0).
  - reflexivity.
  - first_match_by_computation.
  - reflexivity.
  - by_computation.
  - by_computation.
  - reflexivity.
  - reflexivity.
  - next_tag_by_computation.
  - next_tag_by_computation.
  - by_computation.
  - by_computation.
  - right. exists None. split; by_computation.
Defined.

Lemma summary_file_never_overwritten_witness :
  (forall countries,
     create_summary_file Fixture.repr_tenths "Canada" countries
       Fixture.world_with_summary
     = (Raise FileExistsError, Fixture.world_with_summary))
  /\ exists e w',
       country_coronavirus_stats Fixture.web Fixture.literal_ignorecase
         Fixture.join_path Fixture.repr_tenths "Canada"
         Fixture.world_with_summary = (Raise e, w')
       /\ files w' = files Fixture.world_with_summary
       /\ files w' !! summary_name "Canada" = Some "kept"
       /\ (is_ok (fst (collect_countries Fixture.web Fixture.literal_ignorecase
                         Fixture.join_path "Canada"
                         Fixture.world_with_summary)) = true ->
           e = FileExistsError).
Proof.
  apply (summary_file_never_overwritten Fixture.web Fixture.literal_ignorecase
           Fixture.join_path Fixture.repr_tenths "Canada"
           Fixture.world_with_summary "kept").
  by_computation.
Defined.

(** The run that finds the summary of Canada in its way. *)
Example run_canada_again :
  country_coronavirus_stats Fixture.web Fixture.literal_ignorecase
    Fixture.join_path Fixture.repr_tenths "Canada" Fixture.world_with_summary
  = (Raise FileExistsError, Fixture.world_with_summary).
Proof. by_computation. Qed.

(** C9 fails where a name comes twice: "Congo" is on the first row with
    one case and on the third row with two, and the dictionary holds the
    two cases of the later row. *)
Lemma duplicated_name_last_match_wins :
  country_loop_body Fixture.web_twice Fixture.literal_ignorecase
    Fixture.join_path (parse Fixture.pandemic_page_twice) [] 4%nat
    Fixture.empty_world
  = (Ok [Fixture.congo_entry "1"], Fixture.empty_world)
  /\ collect_countries Fixture.web_twice Fixture.literal_ignorecase
       Fixture.join_path "Congo" Fixture.empty_world
     = (Ok [Fixture.congo_entry "2"], Fixture.empty_world)
  /\ Fixture.congo_entry "1" <> Fixture.congo_entry "2".
Proof.
  split; [by_computation|]. split; [by_computation|]. discriminate.
Qed.

Lemma report_order_and_last_match_witness :
  let countries :=
    dict_update
      [Fixture.congo_entry "1"; Fixture.canada_entry; Fixture.congo_entry "2"]
      [] in
  collect_countries Fixture.web_twice Fixture.literal_ignorecase
    Fixture.join_path "C" Fixture.empty_world
  = (Ok countries, Fixture.empty_world)
  /\ keys countries
     = first_occurrences
         (map (fun c => get_text (at_ (parse Fixture.pandemic_page_twice) c))
            (List.filter (accepted (parse Fixture.pandemic_page_twice))
               (find_all (parse Fixture.pandemic_page_twice) 1%nat
                  (anchor_matching
                     (fun text => Fixture.contains (PyStr.lower "C")
                                    (PyStr.lower text))))))
  /\ NoDup (keys countries)
  /\ (forall k,
        dict_get k countries
        = last_value k
            [Fixture.congo_entry "1"; Fixture.canada_entry;
             Fixture.congo_entry "2"])
  /\ (files Fixture.empty_world !! summary_name "C" = None ->
      country_coronavirus_stats Fixture.web_twice Fixture.literal_ignorecase
        Fixture.join_path Fixture.repr_tenths "C" Fixture.empty_world
      = (Ok tt,
         {| files := <[summary_name "C"
                       := report Fixture.repr_tenths countries]>
                       (files Fixture.empty_world);
            console := console Fixture.empty_world |})).
Proof.
  apply (report_order_and_last_match Fixture.web_twice
           Fixture.literal_ignorecase Fixture.join_path Fixture.repr_tenths
           "C" Fixture.empty_world Fixture.pandemic_page_twice 1%nat
           (fun text => Fixture.contains (PyStr.lower "C") (PyStr.lower text))
           [Fixture.congo_entry "1"; Fixture.canada_entry;
            Fixture.congo_entry "2"]).
  - reflexivity.
  - first_match_by_computation.
  - reflexivity.
  - repeat constructor; eexists; reflexivity.
  - repeat constructor; entry_by_computation.
Defined.

(** The order of the keys on that page: Congo, where it came first, then
    Canada. *)
Example keys_twice :
  keys (dict_update
          [Fixture.congo_entry "1"; Fixture.canada_entry;
           Fixture.congo_entry "2"] [])
  = ["Congo"; "Canada"].
Proof. reflexivity. Qed.


(** * More on the program *)

(** ** Integers written with separators and read back *)

Module RoundTrip.
Import PyStr.

Lemma digit_value_of_nat k :
  0 <= k < 10 -> digit_value (ascii_of_nat (48 + Z.to_nat k)) = Some k.
Proof.
  intros Hk. unfold digit_value.
  rewrite nat_ascii_embedding by lia.
  replace ((48 <=? 48 + Z.to_nat k)%nat && (48 + Z.to_nat k <=? 57)%nat)
    with true.
  - f_equal. lia.
  - symmetry. apply andb_true_iff. split; apply Nat.leb_le; lia.
Qed.

Lemma digit_value_Some c d :
  digit_value c = Some d -> d = Z.of_nat (nat_of_ascii c) - 48.
Proof.
  unfold digit_value. destruct (_ && _); [|done]. by intros [= <-].
Qed.

Lemma is_digit_of_nat k : 0 <= k < 10 ->
  is_digit (ascii_of_nat (48 + Z.to_nat k)) = true.
Proof. intros Hk. unfold is_digit. by rewrite digit_value_of_nat. Qed.

(** The digits of a number below [2 ^ fuel]: there is one at least, they
    are digits, and they write the number. *)
Lemma rev_digits_spec fuel : forall n,
  0 <= n < 2 ^ Z.of_nat fuel -> (1 <= fuel)%nat ->
  rev_digits fuel n <> []
  /\ Forall (fun c => is_digit c = true) (rev_digits fuel n)
  /\ digits_value (rev_digits fuel n) = n.
Proof.
  induction fuel as [|fuel IH]; intros n Hn Hfuel; [lia|].
  cbn [rev_digits].
  pose proof (Z.mod_pos_bound n 10 ltac:(lia)) as Hmod.
  split; [done|].
  destruct (Z.ltb_spec n 10) as [Hlt|Hge].
  - split; [constructor; [by apply is_digit_of_nat | constructor]|].
    cbn [digits_value]. rewrite nat_ascii_embedding by lia.
    rewrite Z.mod_small by lia. lia.
  - assert (Hfuel' : (1 <= fuel)%nat).
    { destruct fuel; [|lia]. change (2 ^ Z.of_nat 1) with 2 in Hn. lia. }
    assert (Hdiv : 0 <= n / 10 < 2 ^ Z.of_nat fuel).
    { split; [apply Z.div_pos; lia|].
      apply Z.div_lt_upper_bound; [lia|].
      rewrite Nat2Z.inj_succ, Z.pow_succ_r in Hn by lia.
      assert (0 < 2 ^ Z.of_nat fuel) by (apply Z.pow_pos_nonneg; lia). lia. }
    destruct (IH (n / 10) Hdiv Hfuel') as (_ & Hall & Hval).
    split; [constructor; [by apply is_digit_of_nat | done]|].
    cbn [digits_value]. rewrite nat_ascii_embedding by lia. rewrite Hval.
    pose proof (Z.div_mod n 10 ltac:(lia)). lia.
Qed.

Lemma remove_commas_list l :
  remove_commas (string_of_list_ascii l)
  = string_of_list_ascii (List.filter not_comma l).
Proof.
  induction l as [|c l IH]; [done|].
  cbn [string_of_list_ascii remove_commas List.filter]. unfold not_comma at 1.
  destruct (Ascii.eqb c ","); cbn [negb string_of_list_ascii]; by rewrite IH.
Qed.

Lemma is_digit_not_comma c : is_digit c = true -> not_comma c = true.
Proof.
  unfold not_comma. destruct (Ascii.eqb_spec c ",") as [->|]; [|done].
  by vm_compute.
Qed.

(** Taking the commas out of the grouped digits gives the digits back. *)
Lemma filter_group3 n : forall ds,
  (length ds <= n)%nat ->
  Forall (fun c => is_digit c = true) ds ->
  List.filter not_comma (group3 ds) = ds.
Proof.
  induction n as [|n IH]; intros ds Hlen Hall.
  - by destruct ds; [|simpl in Hlen; lia].
  - assert (Hid : List.filter not_comma ds = ds).
    { clear Hlen. induction Hall as [|c l Hc _ IHl]; [done|].
      simpl. by rewrite (is_digit_not_comma c Hc), IHl. }
    destruct ds as [|a [|b [|c [|d rest]]]]; try exact Hid.
    change (group3 (a :: b :: c :: d :: rest))
      with (a :: b :: c :: ","%char :: group3 (d :: rest)).
    inversion Hall as [|? ? Ha Hall1]; subst.
    inversion Hall1 as [|? ? Hb Hall2]; subst.
    inversion Hall2 as [|? ? Hc Hall3]; subst.
    cbn [List.filter].
    rewrite (is_digit_not_comma a Ha), (is_digit_not_comma b Hb),
      (is_digit_not_comma c Hc).
    change (not_comma ",") with false. cbv iota.
    rewrite IH; [done | simpl in *; lia | done].
Qed.

(** Reading digits, the most significant first. *)
Lemma parse_digits_after_digit l : forall acc,
  Forall (fun c => is_digit c = true) l ->
  parse_digits AfterDigit acc (string_of_list_ascii l)
  = Some (fold_left shift_in l acc).
Proof.
  induction l as [|c l IH]; intros acc Hall; [done|].
  inversion Hall as [|? ? Hc Hall']; subst.
  cbn [string_of_list_ascii parse_digits fold_left].
  unfold is_digit in Hc.
  destruct (digit_value c) as [d|] eqn:Hd; [|done].
  apply digit_value_Some in Hd as ->. by rewrite IH.
Qed.

Lemma parse_digits_at_start l :
  l <> [] -> Forall (fun c => is_digit c = true) l ->
  parse_digits AtStart 0 (string_of_list_ascii l)
  = Some (fold_left shift_in l 0).
Proof.
  intros Hne Hall. destruct l as [|c l]; [done|].
  inversion Hall as [|? ? Hc Hall']; subst.
  cbn [string_of_list_ascii parse_digits fold_left].
  unfold is_digit in Hc.
  destruct (digit_value c) as [d|] eqn:Hd; [|done].
  apply digit_value_Some in Hd as ->. by rewrite parse_digits_after_digit.
Qed.

Lemma fold_left_rev_digits ds :
  fold_left shift_in (rev ds) 0 = digits_value ds.
Proof.
  induction ds as [|c ds IH]; [done|].
  cbn [rev digits_value]. rewrite fold_left_app. cbn [fold_left].
  unfold shift_in at 1. rewrite IH. lia.
Qed.

Lemma is_digit_not_space c : is_digit c = true -> is_space c = false.
Proof.
  unfold is_digit, digit_value, is_space.
  destruct (_ && _) eqn:Hd; [|done]. intros _.
  apply andb_true_iff in Hd as [H1 H2].
  apply Nat.leb_le in H1, H2.
  repeat (apply orb_false_iff; split);
    [apply andb_false_iff; right; apply Nat.leb_gt; lia
    | apply Nat.eqb_neq; lia..].
Qed.

Lemma rstrip_no_space l :
  Forall (fun c => is_space c = false) l ->
  rstrip (string_of_list_ascii l) = string_of_list_ascii l.
Proof.
  induction 1 as [|c l Hc _ IH]; [done|].
  cbn [string_of_list_ascii rstrip]. rewrite IH, Hc.
  by destruct (string_of_list_ascii l).
Qed.

Lemma strip_no_space l :
  Forall (fun c => is_space c = false) l ->
  strip (string_of_list_ascii l) = string_of_list_ascii l.
Proof.
  intros Hall. unfold strip.
  assert (lstrip (string_of_list_ascii l) = string_of_list_ascii l) as ->.
  { destruct Hall as [|c l Hc _]; [done|].
    cbn [string_of_list_ascii lstrip]. by rewrite Hc. }
  by apply rstrip_no_space.
Qed.

(** [int] of unsigned digits. *)
Lemma int_digits l :
  l <> [] -> Forall (fun c => is_digit c = true) l ->
  int (string_of_list_ascii l) = Ok (fold_left shift_in l 0).
Proof.
  intros Hne Hall. unfold int.
  rewrite strip_no_space
    by (eapply Forall_impl; [exact Hall|]; apply is_digit_not_space).
  pose proof (parse_digits_at_start l Hne Hall) as Hparse.
  destruct l as [|c l]; [done|].
  inversion Hall as [|? ? Hc _]; subst.
  cbn [string_of_list_ascii] in *.
  destruct c as [[] [] [] [] [] [] [] []];
    try (by vm_compute in Hc); by rewrite Hparse.
Qed.

(** [int] of digits after a minus sign. *)
Lemma int_minus_digits l :
  l <> [] -> Forall (fun c => is_digit c = true) l ->
  int (String "-" (string_of_list_ascii l)) = Ok (- fold_left shift_in l 0).
Proof.
  intros Hne Hall. unfold int.
  change (String "-" (string_of_list_ascii l))
    with (string_of_list_ascii ("-"%char :: l)).
  rewrite strip_no_space.
  - cbn [string_of_list_ascii]. by rewrite parse_digits_at_start.
  - constructor; [done|].
    eapply Forall_impl; [exact Hall|]. apply is_digit_not_space.
Qed.

(** X1: an integer written with thousands separators, as the program
    stores it, and read back as the program reads a cell, is the same
    integer. *)
Theorem format_thousands_round_trip n :
  int (remove_commas (format_thousands n)) = Ok n.
Proof.
  unfold format_thousands.
  set (m := Z.abs n).
  set (fuel := S (Z.to_nat (Z.log2 m))).
  assert (Hm : 0 <= m < 2 ^ Z.of_nat fuel).
  { unfold fuel, m. split; [lia|].
    rewrite Nat2Z.inj_succ, Z2Nat.id by apply Z.log2_nonneg.
    destruct (Z.eq_dec (Z.abs n) 0) as [->|]; [done|].
    apply Z.log2_spec. lia. }
  destruct (rev_digits_spec fuel m Hm ltac:(unfold fuel; lia))
    as (Hne & Hall & Hval).
  set (ds := rev_digits fuel m) in *.
  assert (Hrev_ne : rev ds <> []).
  { intros Heq. apply Hne. by rewrite <- (rev_involutive ds), Heq. }
  assert (Hrev_all : Forall (fun c => is_digit c = true) (rev ds))
    by (by apply Forall_rev).
  assert (Hbody : remove_commas (string_of_list_ascii (rev (group3 ds)))
                  = string_of_list_ascii (rev ds)).
  { rewrite remove_commas_list, filter_rev.
    by rewrite (filter_group3 (length ds)). }
  destruct (Z.ltb_spec n 0) as [Hneg|Hpos].
  - change (remove_commas (String "-" ?b)) with (String "-" (remove_commas b)).
    rewrite Hbody, int_minus_digits, fold_left_rev_digits, Hval by done.
    f_equal. unfold m. lia.
  - rewrite Hbody, int_digits, fold_left_rev_digits, Hval by done.
    f_equal. unfold m. lia.
Qed.

End RoundTrip.

(** ** The sign of the rate *)

Module RateSign.
Import PyFloat PyFloatFacts.

Lemma binary_round_aux_sign s m e l :
  0 <= m -> sign_bit (binary_round_aux prec emax s m e l) = Some s.
Proof.
  intros Hm.
  destruct (binary_round_aux_spec s m e l Hm) as (m2 & e2 & -> & Hm2 & _).
  destruct m2 as [|q|q]; [done | | lia].
  by destruct (e2 <=? emax - prec).
Qed.

Lemma SFdiv_finite_sign sa ma ea sb mb eb :
  sign_bit (SFdiv prec emax (S754_finite sa ma ea) (S754_finite sb mb eb))
  = Some (xorb sa sb).
Proof.
  destruct (SFdiv_finite_spec sa ma ea sb mb eb) as (m2 & e2 & -> & Hm2 & _).
  destruct m2 as [|q|q]; [done | | lia].
  by destruct (e2 <=? emax - prec).
Qed.

Lemma of_int_sign n a :
  0 < n -> of_int n = Ok a -> sign_bit a = Some false.
Proof.
  intros Hn. unfold of_int, binary_normalize, binary_round.
  destruct n as [|q|q]; try lia.
  destruct (shl_align q 0 (fexp prec emax (Z.pos (digits2_pos q) + 0)))
    as [mz ez].
  pose proof (binary_round_aux_sign false (Zpos mz) ez loc_Exact ltac:(lia))
    as Hs.
  destruct (binary_round_aux prec emax false (Z.pos mz) ez loc_Exact);
    intros [= <-]; done.
Qed.

Lemma int_truediv_100000_sign population b :
  0 < population -> int_truediv population 100000 = Ok b ->
  exists m e, b = S754_finite false m e.
Proof.
  intros Hp Hb.
  pose proof (int_truediv_100000_nonzero population Hp) as Hz.
  rewrite Hb in Hz. revert Hb. unfold int_truediv.
  destruct population as [|q|q]; try lia.
  change (Zpos q <? 0) with false. change (100000 <? 0) with false.
  pose proof (SFdiv_finite_sign false (Z.to_pos (Z.abs (Zpos q))) 0
                false (Z.to_pos (Z.abs 100000)) 0) as Hs.
  destruct (SFdiv prec emax _ _) as [s|s| |s m e]; intros [= <-];
    try done.
  injection Hs as <-. by exists m, e.
Qed.

Lemma round1_sign x r :
  round1 x = Ok r -> sign_bit r = sign_bit x.
Proof.
  unfold round1. destruct x as [s|s| |s m e]; try by intros [= <-].
  destruct (match e with
            | Z.neg q => div_half_even (Z.pos m * 10) (2 ^ Z.pos q)
            | _ => Z.pos m * 2 ^ e * 10
            end) as [|t|t] eqn:Ht; [by intros [= <-] | |].
  - pose proof (SFdiv_finite_sign s (Z.to_pos (Zpos t)) 0 false 10 0) as Hs.
    rewrite xorb_false_r in Hs.
    destruct (SFdiv prec emax _ _); intros [= <-]; done.
  - pose proof (SFdiv_finite_sign s (Z.to_pos (Zneg t)) 0 false 10 0) as Hs.
    rewrite xorb_false_r in Hs.
    destruct (SFdiv prec emax _ _); intros [= <-]; done.
Qed.

(** X2: the rate of a positive count in a positive population, when the
    function returns one, is a float with the sign plus: never negative,
    never [-0.0], never a NaN. *)
Theorem calculate_per_100000_stat_sign population stat rate :
  0 < population -> 0 < stat ->
  calculate_per_100000_stat population stat = Ok rate ->
  sign_bit rate = Some false.
Proof.
  intros Hp Hs. unfold calculate_per_100000_stat.
  destruct (Z.eqb_spec stat 0); [lia|].
  destruct (int_truediv population 100000) as [b|] eqn:Hb; [|done].
  destruct (int_truediv_100000_sign population b Hp Hb) as (mb & eb & ->).
  cbn [rbind]. unfold int_float_truediv.
  destruct (of_int stat) as [a|] eqn:Ha; [|done].
  pose proof (of_int_sign stat a Hs Ha) as Hsa.
  cbn [rbind]. unfold truediv. cbn [is_zero].
  intros Hr. apply round1_sign in Hr as ->.
  destruct a as [sa|sa| |sa ma ea]; try done; injection Hsa as ->;
    [done | done | apply SFdiv_finite_sign].
Qed.

Lemma calculate_per_100000_stat_sign_witness :
  sign_bit (S754_finite false 7036874417766400 (-45)) = Some false.
Proof.
  apply (calculate_per_100000_stat_sign 50000000 100000); [lia | lia |].
  vm_compute. reflexivity.
Defined.

End RateSign.

(** ** What a run leaves behind *)

Section RunFacts.

Variable web : string -> response.
Variable re_compile_ignorecase : string -> option (string -> bool).
Variable urljoin : string -> string -> string.
Variable float_str : PyFloat.float -> string.

Import IoFacts.

Lemma dict_get_keys (countries : list (string * country_info)) :
  Forall (fun k => is_Some (dict_get k countries)) (map fst countries).
Proof.
  apply List.Forall_forall. intros k Hk.
  destruct (dict_get k countries) as [v|] eqn:Hget; [by exists v|].
  apply DictFacts.dict_get_None in Hget.
  apply DictFacts.mem_true in Hk. unfold keys in Hget. congruence.
Qed.

(** The loop that writes the blocks never raises: a key of the dictionary
    has a value. *)
Lemma write_loop_returns name (countries : list (string * country_info)) ks :
  forall w content,
    Forall (fun k => is_Some (dict_get k countries)) ks ->
    files w !! name = Some content ->
    exists text,
      for_each
        (fun (_ : unit) country =>
           match dict_get country countries with
           | None => raise KeyError
           | Some info => write name (summary_block float_str country info)
           end)
        ks tt w
      = (Ok tt, {| files := <[name := (content ++ text)%string]> (files w);
                   console := console w |}).
Proof.
  induction ks as [|k ks IH]; intros w content Hks Hc.
  - exists "". simpl. unfold ret. f_equal. destruct w as [fs out].
    simpl in *. f_equal. rewrite PyStrFacts.append_nil_r.
    symmetry. by apply insert_id.
  - inversion Hks as [|? ? [info Hinfo] Hks']; subst.
    change (for_each ?b (k :: ks) tt)
      with (bind (b tt k) (fun s' => for_each b ks s')).
    cbv beta. rewrite Hinfo. unfold bind at 1, write at 1.
    destruct (IH {| files := alter
                               (fun old => (old ++ summary_block float_str k info)%string)
                               name (files w);
                    console := console w |}
                 (content ++ summary_block float_str k info)%string Hks')
      as [text Htext]; [simpl; by rewrite lookup_alter_eq, Hc|].
    exists (summary_block float_str k info ++ text)%string.
    rewrite Htext. simpl. f_equal. f_equal.
    rewrite PyStrFacts.append_assoc.
    apply map_eq. intros i. destruct (decide (i = name)) as [->|Hne].
    + by rewrite !lookup_insert_eq.
    + by rewrite !lookup_insert_ne, lookup_alter_ne.
Qed.

(** Writing the summary has two outcomes: the file was there and nothing
    happens but the exception, or it was not and it is created. *)
Lemma create_summary_file_outcome search_term countries w :
  (exists old, files w !! summary_name search_term = Some old
               /\ create_summary_file float_str search_term countries w
                  = (Raise FileExistsError, w))
  \/ (files w !! summary_name search_term = None
      /\ exists text,
           create_summary_file float_str search_term countries w
           = (Ok tt, {| files := <[summary_name search_term := text]> (files w);
                        console := console w |})).
Proof.
  destruct (files w !! summary_name search_term) as [old|] eqn:Hfile.
  - left. exists old. split; [done|].
    unfold create_summary_file, bind, open_x. by rewrite Hfile.
  - right. split; [done|].
    unfold create_summary_file, bind at 1, open_x. rewrite Hfile.
    destruct (write_loop_returns (summary_name search_term) countries
                (map fst countries)
                {| files := <[summary_name search_term := ""]> (files w);
                   console := console w |} ""
                (dict_get_keys countries))
      as [text Htext]; [simpl; by rewrite lookup_insert_eq|].
    exists text. rewrite Htext. simpl. by rewrite insert_insert_eq.
Qed.

(** X3: a run that fails has written nothing: every file is as it was,
    and no summary was created. *)
Theorem failed_run_writes_nothing search_term w e w' :
  country_coronavirus_stats web re_compile_ignorecase urljoin float_str
    search_term w = (Raise e, w') ->
  files w' = files w.
Proof.
  unfold country_coronavirus_stats, bind.
  pose proof (keeps_files_collect_countries web re_compile_ignorecase urljoin
                search_term w) as Hf.
  destruct (collect_countries web re_compile_ignorecase urljoin search_term w)
    as [[countries|e1] w1]; simpl in Hf.
  - destruct (create_summary_file_outcome search_term countries w1)
      as [(old & _ & ->)|(_ & text & ->)]; [|done].
    by intros [= _ <-].
  - by intros [= _ <-].
Qed.

(** X4: a run that succeeds has printed nothing, found no summary of that
    name, created it, and left every other file as it was. *)
Theorem successful_run_touches_only_summary search_term w w' :
  country_coronavirus_stats web re_compile_ignorecase urljoin float_str
    search_term w = (Ok tt, w') ->
  console w' = console w
  /\ files w !! summary_name search_term = None
  /\ is_Some (files w' !! summary_name search_term)
  /\ forall name, name <> summary_name search_term ->
                  files w' !! name = files w !! name.
Proof.
  unfold country_coronavirus_stats. intros Hrun.
  apply bind_inv_Ok in Hrun as (countries & w1 & Hcollect & Hcreate).
  apply collect_countries_inv in Hcollect as [-> _].
  destruct (create_summary_file_outcome search_term countries w)
    as [(old & _ & Heq)|(Hnone & text & Heq)];
    rewrite Heq in Hcreate; [done|].
  injection Hcreate as <-. simpl.
  split; [done|]. split; [done|]. split.
  - rewrite lookup_insert_eq. by eexists.
  - intros name Hne. by rewrite lookup_insert_ne.
Qed.

(** *** [main] *)

Lemma length_append s t :
  String.length (s ++ t)%string = (String.length s + String.length t)%nat.
Proof.
  induction s as [|c s IH]; [done|].
  change (S (String.length (s ++ t)%string)
          = S (String.length s + String.length t)). by rewrite IH.
Qed.

Lemma append_inj_r t : forall s1 s2,
  (s1 ++ t)%string = (s2 ++ t)%string -> s1 = s2.
Proof.
  induction s1 as [|c s1 IH]; intros [|d s2] Heq; [done | | |].
  - apply (f_equal String.length) in Heq.
    change (String.length (String d s2 ++ t)%string)
      with (S (String.length (s2 ++ t)%string)) in Heq.
    rewrite !length_append in Heq. simpl in Heq. lia.
  - apply (f_equal String.length) in Heq.
    change (String.length (String c s1 ++ t)%string)
      with (S (String.length (s1 ++ t)%string)) in Heq.
    rewrite !length_append in Heq. simpl in Heq. lia.
  - change (String c (s1 ++ t)%string = String d (s2 ++ t)%string) in Heq.
    injection Heq as -> Heq. f_equal. by apply IH.
Qed.

(** X5: when [main] returns, the summary it has written is named after
    the term as it was typed, while the last line on the console names the
    file after the term in lower case: for a term with a capital letter
    the file announced is not the file written. *)
Theorem main_announces_lowercased_name typed w w' :
  main web re_compile_ignorecase urljoin float_str typed w = (Ok tt, w') ->
  last (console w')
  = Some ("Your data has been saved in the file: "
          ++ PyStr.lower typed ++ "summary.txt.")%string
  /\ is_Some (files w' !! (typed ++ "summary.txt")%string)
  /\ (PyStr.lower typed <> typed ->
      files w' !! (PyStr.lower typed ++ "summary.txt")%string
      = files w !! (PyStr.lower typed ++ "summary.txt")%string).
Proof.
  unfold main. intros Hrun.
  apply bind_inv_Ok in Hrun as ([] & w0 & Hprompt & Hrun).
  injection Hprompt as <-.
  apply bind_inv_Ok in Hrun as ([] & w1 & Hstats & Hsaved).
  injection Hsaved as <-.
  apply successful_run_touches_only_summary in Hstats
    as (_ & _ & Hcreated & Hothers).
  simpl in *. split; [by rewrite last_snoc|]. split; [done|].
  intros Hlower. apply Hothers. unfold summary_name.
  intros Heq. by apply append_inj_r in Heq.
Qed.

(** When the run fails, [main] fails with it and announces nothing. *)
Lemma main_raises typed w e w1 :
  country_coronavirus_stats web re_compile_ignorecase urljoin float_str typed
    {| files := files w;
       console := console w ++ ["Please enter a search term: "] |}
  = (Raise e, w1) ->
  main web re_compile_ignorecase urljoin float_str typed w = (Raise e, w1).
Proof.
  intros Hrun. unfold main, bind at 1, print at 1.
  by rewrite (bind_Raise _ _ _ _ _ Hrun).
Qed.

(** *** Pages that cannot be opened, tables that are not there *)

(** X6: when the pandemic page cannot be opened, the run prints the error,
    then fails with [AttributeError] on the [None] it was given; no file is
    written. *)
Theorem pandemic_page_unreachable search_term w reason :
  web pandemic_url = URLError reason ->
  country_coronavirus_stats web re_compile_ignorecase urljoin float_str
    search_term w
  = (Raise AttributeError,
     {| files := files w;
        console := console w
                   ++ [("Error opening url: " ++ pandemic_url
                        ++ String PyStr.newline reason)%string] |}).
Proof.
  intros Hweb.
  unfold country_coronavirus_stats, collect_countries, read_url, bind, print.
  by rewrite Hweb.
Qed.

(** X7: when the pandemic page has no table with the identifier
    [thetable], the run fails before it looks at any anchor, with
    [AttributeError] for a search term that is a pattern and with the error
    of [re.compile] for one that is not; nothing is printed or written. *)
Theorem statistics_table_missing search_term w root :
  web pandemic_url = Page root ->
  (forall j, descendant (parse root) 0%nat j ->
             table_with_id "thetable" (at_ (parse root) j) = false) ->
  country_coronavirus_stats web re_compile_ignorecase urljoin float_str
    search_term w
  = (Raise match re_compile_ignorecase search_term with
           | Some _ => AttributeError
           | None => ReError
           end, w).
Proof.
  intros Hweb Hnone. apply Bs4Facts.find_all_nil in Hnone.
  unfold country_coronavirus_stats. apply bind_Raise.
  unfold collect_countries.
  rewrite (bind_Ok _ _ _ _ _ (read_url_Page web _ _ w Hweb)).
  unfold Bs4.find. rewrite Hnone. unfold re_compile.
  by destruct (re_compile_ignorecase search_term).
Qed.

(** X8: a page of a country, or the population page, that cannot be
    opened is not skipped: the error is printed, and the function that
    asked for the page fails with [TypeError]. *)
Theorem enrichment_page_unreachable url country w reason :
  (web url = URLError reason ->
   get_first_paragraph web url w
   = (Raise TypeError,
      {| files := files w;
         console := console w
                    ++ [("Error opening url: " ++ url
                         ++ String PyStr.newline reason)%string] |}))
  /\ (web population_url = URLError reason ->
      get_population web re_compile_ignorecase country w
      = (Raise TypeError,
         {| files := files w;
            console := console w
                       ++ [("Error opening url: " ++ population_url
                            ++ String PyStr.newline reason)%string] |})).
Proof.
  split; intros Hweb.
  - unfold get_first_paragraph, read_url, bind, print. by rewrite Hweb.
  - unfold get_population, read_url, bind, print. by rewrite Hweb.
Qed.

(** *** The paragraph that is returned *)

Lemma find_split {A} (f : A -> bool) l x :
  List.find f l = Some x ->
  exists before after,
    l = (before ++ x :: after)%list /\ f x = true
    /\ Forall (fun y => f y = false) before.
Proof.
  induction l as [|y l IH]; [done|]. simpl.
  destruct (f y) eqn:Hy.
  - intros [= ->]. exists [], l. by repeat split.
  - intros Hfind. destruct (IH Hfind) as (before & after & -> & Hx & Hb).
    exists (y :: before), after. split; [done|]. split; [done|].
    by constructor.
Qed.

Lemma find_None_Forall {A} (f : A -> bool) l :
  List.find f l = None -> Forall (fun y => f y = false) l.
Proof.
  induction l as [|y l IH]; [done|]. simpl.
  destruct (f y) eqn:Hy; [done|]. intros Hfind. constructor; auto.
Qed.

Lemma not_starts_with_a_line text :
  Re.match_ paragraph_pattern text = false -> ~ starts_with_a_line text.
Proof.
  intros Hno Hyes. apply paragraph_pattern_matches in Hyes. congruence.
Qed.

(** X9: on a page that opens, the paragraph returned is the first one, in
    document order, whose text begins with a character other than a line
    feed and has a line feed further on: every paragraph before it fails
    that test, and [None] is returned exactly when they all fail. *)
Theorem get_first_paragraph_first_line url root w :
  web url = Page root ->
  exists paragraph,
    get_first_paragraph web url w = (Ok paragraph, w)
    /\ match paragraph with
       | Some text =>
           exists before p_tag after,
             find_all (parse root) 0%nat (is_tag "p")
               = (before ++ p_tag :: after)%list
             /\ text = get_text (at_ (parse root) p_tag)
             /\ starts_with_a_line text
             /\ Forall (fun q => ~ starts_with_a_line
                                     (get_text (at_ (parse root) q))) before
       | None =>
           Forall (fun q => ~ starts_with_a_line
                                (get_text (at_ (parse root) q)))
             (find_all (parse root) 0%nat (is_tag "p"))
       end.
Proof.
  intros Hweb. eexists. split; [by apply get_first_paragraph_Page|].
  destruct (List.find _ _) as [p_tag|] eqn:Hfind; simpl.
  - apply find_split in Hfind as (before & after & Heq & Hp & Hb).
    exists before, p_tag, after. split; [done|]. split; [done|].
    split; [by apply paragraph_pattern_matches|].
    eapply Forall_impl; [exact Hb|]. intros q. apply not_starts_with_a_line.
  - apply find_None_Forall in Hfind.
    eapply Forall_impl; [exact Hfind|]. intros q. apply not_starts_with_a_line.
Qed.

(** *** Rows that are not as expected *)

Lemma cell_value_error doc td e :
  cell_value doc td = Raise e -> e = ValueError.
Proof.
  unfold cell_value, PyStr.int.
  destruct (match PyStr.strip _ with
            | String "-" t => option_map Z.opp (PyStr.parse_digits PyStr.AtStart 0 t)
            | String "+" t => PyStr.parse_digits PyStr.AtStart 0 t
            | _ => PyStr.parse_digits PyStr.AtStart 0
                     (PyStr.strip (PyStr.remove_commas (get_text (at_ doc td))))
            end); [done | by intros [= <-]].
Qed.

Lemma cell_int_raise doc cell w e w' :
  cell_int doc cell w = (Raise e, w') ->
  w' = w
  /\ (cell = None /\ e = AttributeError
      \/ exists td, cell = Some td /\ cell_value doc td = Raise ValueError
                    /\ e = ValueError).
Proof.
  unfold cell_int, lift. destruct cell as [td|].
  - intros [= Hv <-]. split; [done|]. right. exists td.
    pose proof (cell_value_error doc td e Hv) as ->. by repeat split.
  - intros [= <- <-]. split; [done|]. by left.
Qed.

(** X10: an accepted anchor whose row is not as expected stops the run
    before any page is asked for: no cell after the anchor, or only one,
    is an [AttributeError]; a cell whose text without commas is not an
    integer is a [ValueError]; the dictionary gets no entry and nothing is
    printed. *)
Theorem malformed_row_raises doc countries country w href :
  get (at_ doc country) "href" = Some href ->
  PyStr.startswith href detail_prefix = true ->
  match find_next doc country "td" with
  | None =>
      country_loop_body web re_compile_ignorecase urljoin doc countries
        country w = (Raise AttributeError, w)
  | Some td1 =>
      match cell_value doc td1, find_next doc td1 "td" with
      | Raise _, _ =>
          country_loop_body web re_compile_ignorecase urljoin doc countries
            country w = (Raise ValueError, w)
      | Ok _, None =>
          country_loop_body web re_compile_ignorecase urljoin doc countries
            country w = (Raise AttributeError, w)
      | Ok _, Some td2 =>
          forall e, cell_value doc td2 = Raise e ->
            country_loop_body web re_compile_ignorecase urljoin doc countries
              country w = (Raise ValueError, w)
      end
  end.
Proof.
  intros Hh Hp. unfold country_loop_body. rewrite Hh, Hp.
  change (negb true) with false. cbv iota.
  destruct (find_next doc country "td") as [td1|]; [|done].
  assert (H1 : cell_int doc (Some td1) w = (cell_value doc td1, w)) by done.
  destruct (cell_value doc td1) as [n_cases|e1] eqn:Hc.
  - rewrite (bind_Ok _ _ _ _ _ H1).
    destruct (find_next doc td1 "td") as [td2|]; [|done].
    intros e He.
    assert (H2 : cell_int doc (Some td2) w = (Raise ValueError, w)).
    { change (cell_int doc (Some td2) w) with (cell_value doc td2, w).
      by rewrite He, (cell_value_error doc td2 e He). }
    by rewrite (bind_Raise _ _ _ _ _ H2).
  - rewrite (cell_value_error doc td1 e1 Hc) in H1.
    by rewrite (bind_Raise _ _ _ _ _ H1).
Qed.

(** X11: the ways [get_population] fails on a page that opens: no table
    on the page is an [IndexError]; a matching anchor with no cell after
    it is an [AttributeError]; a next cell that is not an integer is a
    [ValueError].  Nothing is printed. *)
Theorem get_population_failures country w root :
  web population_url = Page root ->
  ((forall j, descendant (parse root) 0%nat j ->
              is_tag "table" (at_ (parse root) j) = false) ->
   get_population web re_compile_ignorecase country w = (Raise IndexError, w))
  /\ (forall table search a,
        first_match (parse root) 0%nat (is_tag "table") table ->
        re_compile_ignorecase country = Some search ->
        first_match (parse root) table (anchor_matching search) a ->
        match find_next (parse root) a "td" with
        | None =>
            get_population web re_compile_ignorecase country w
            = (Raise AttributeError, w)
        | Some td =>
            forall e, cell_value (parse root) td = Raise e ->
              get_population web re_compile_ignorecase country w
              = (Raise ValueError, w)
        end).
Proof.
  intros Hweb. unfold get_population.
  rewrite (bind_Ok _ _ _ _ _ (read_url_Page web _ _ w Hweb)). split.
  - intros Hnone. apply Bs4Facts.find_all_nil in Hnone. by rewrite Hnone.
  - intros table search a Htable Hre Ha.
    apply Bs4Facts.first_match_find_all in Htable as [tables ->].
    unfold re_compile. rewrite Hre. rewrite (bind_Ok _ _ w search w) by done.
    apply Bs4Facts.first_match_find_all in Ha as [rest ->].
    destruct (find_next (parse root) a "td") as [td|]; [|done].
    intros e He.
    change (cell_int (parse root) (Some td) w)
      with (cell_value (parse root) td, w).
    by rewrite He, (cell_value_error _ td e He).
Qed.

(** *** What a scraping that returns has found *)

Lemma last_value_In {V} k (entries : list (string * V)) v :
  last_value k entries = Some v -> In (k, v) entries.
Proof.
  induction entries as [|[k0 v0] entries IH]; [done|]. simpl.
  destruct (last_value k entries) as [v'|].
  - intros [= ->]. right. by apply IH.
  - destruct (String.eqb_spec k0 k) as [->|]; [|done].
    intros [= ->]. by left.
Qed.

Lemma Forall2_In_r {A B} (R : A -> B -> Prop) l k y :
  Forall2 R l k -> In y k -> exists x, In x l /\ R x y.
Proof.
  induction 1 as [|x y' l k Hxy _ IH]; [done|].
  intros [->|Hin].
  - exists x. split; [by left | done].
  - destruct (IH Hin) as (x' & Hx' & HR). exists x'. split; [by right | done].
Qed.

(** X12: a scraping that returns has printed nothing, and its dictionary
    has no key twice; every record in it is the entry of an anchor of the
    statistics table that matches the search term and is accepted. *)
Theorem collect_countries_sound search_term w countries w' :
  collect_countries web re_compile_ignorecase urljoin search_term w
    = (Ok countries, w') ->
  w' = w
  /\ NoDup (keys countries)
  /\ exists root table search,
       web pandemic_url = Page root
       /\ first_match (parse root) 0%nat (table_with_id "thetable") table
       /\ re_compile_ignorecase search_term = Some search
       /\ forall name info,
            dict_get name countries = Some info ->
            exists country,
              descendant (parse root) table country
              /\ anchor_matching search (at_ (parse root) country) = true
              /\ accepted (parse root) country = true
              /\ country_entry web re_compile_ignorecase urljoin (parse root)
                   w country (name, info).
Proof.
  intros Hrun.
  apply collect_countries_inv in Hrun
    as (-> & root & table & search & entries & Hweb & Htable & Hre & _ & He
        & ->).
  split; [done|].
  split; [apply DictFacts.NoDup_keys_dict_update; constructor|].
  exists root, table, search. split; [done|]. split; [done|]. split; [done|].
  intros name info Hget. rewrite DictFacts.dict_get_update in Hget.
  destruct (last_value name entries) as [v|] eqn:Hlast; [|done].
  injection Hget as ->. apply last_value_In in Hlast.
  destruct (Forall2_In_r _ _ _ _ He Hlast) as (country & Hin & Hentry).
  exists country.
  apply filter_In in Hin as [Hin Hacc].
  apply Bs4Facts.elem_of_find_all in Hin as [Hd Hm].
  split; [exact Hd|]. split; [exact Hm|]. split; [exact Hacc | exact Hentry].
Qed.

End RunFacts.

(** ** More of the program on the fixtures *)

Lemma failed_run_writes_nothing_witness :
  files Fixture.empty_world = files Fixture.empty_world.
Proof.
  apply (failed_run_writes_nothing Fixture.web Fixture.literal_ignorecase
           Fixture.join_path Fixture.repr_tenths "a" Fixture.empty_world
           IndexError Fixture.empty_world).
  by_computation.
Defined.

Lemma successful_run_touches_only_summary_witness :
  console (snd (country_coronavirus_stats Fixture.web
                  Fixture.literal_ignorecase Fixture.join_path
                  Fixture.repr_tenths "Canada" Fixture.empty_world))
  = console Fixture.empty_world
  /\ files Fixture.empty_world !! summary_name "Canada" = None
  /\ is_Some (files (snd (country_coronavirus_stats Fixture.web
                            Fixture.literal_ignorecase Fixture.join_path
                            Fixture.repr_tenths "Canada" Fixture.empty_world))
              !! summary_name "Canada")
  /\ forall name, name <> summary_name "Canada" ->
       files (snd (country_coronavirus_stats Fixture.web
                     Fixture.literal_ignorecase Fixture.join_path
                     Fixture.repr_tenths "Canada" Fixture.empty_world))
         !! name
       = files Fixture.empty_world !! name.
Proof.
  apply (successful_run_touches_only_summary Fixture.web
           Fixture.literal_ignorecase Fixture.join_path Fixture.repr_tenths
           "Canada" Fixture.empty_world
           (snd (country_coronavirus_stats Fixture.web
                   Fixture.literal_ignorecase Fixture.join_path
                   Fixture.repr_tenths "Canada" Fixture.empty_world))).
  by_computation.
Defined.

Lemma main_announces_lowercased_name_witness :
  last (console (snd (main Fixture.web Fixture.literal_ignorecase
                        Fixture.join_path Fixture.repr_tenths "Canada"
                        Fixture.empty_world)))
  = Some "Your data has been saved in the file: canadasummary.txt."
  /\ is_Some (files (snd (main Fixture.web Fixture.literal_ignorecase
                            Fixture.join_path Fixture.repr_tenths "Canada"
                            Fixture.empty_world))
              !! "Canadasummary.txt")
  /\ (PyStr.lower "Canada" <> "Canada" ->
      files (snd (main Fixture.web Fixture.literal_ignorecase
                    Fixture.join_path Fixture.repr_tenths "Canada"
                    Fixture.empty_world))
        !! "canadasummary.txt"
      = files Fixture.empty_world !! "canadasummary.txt").
Proof.
  apply (main_announces_lowercased_name Fixture.web
           Fixture.literal_ignorecase Fixture.join_path Fixture.repr_tenths
           "Canada" Fixture.empty_world
           (snd (main Fixture.web Fixture.literal_ignorecase
                   Fixture.join_path Fixture.repr_tenths "Canada"
                   Fixture.empty_world))).
  by_computation.
Defined.

(** The file announced for "Canada" is not there after the run. *)
Example main_canada_announced_file_missing :
  files (snd (main Fixture.web Fixture.literal_ignorecase Fixture.join_path
                Fixture.repr_tenths "Canada" Fixture.empty_world))
    !! "canadasummary.txt" = None.
Proof. by_computation. Qed.

Lemma pandemic_page_unreachable_witness :
  country_coronavirus_stats Fixture.web_down Fixture.literal_ignorecase
    Fixture.join_path Fixture.repr_tenths "Canada" Fixture.empty_world
  = (Raise AttributeError,
     {| files := files Fixture.empty_world;
        console := console Fixture.empty_world
                   ++ [("Error opening url: " ++ pandemic_url
                        ++ String PyStr.newline
                             "<urlopen error [Errno -2] Name or service not known>")%string] |}).
Proof.
  apply (pandemic_page_unreachable Fixture.web_down Fixture.literal_ignorecase
           Fixture.join_path Fixture.repr_tenths "Canada" Fixture.empty_world).
  reflexivity.
Defined.

Lemma statistics_table_missing_witness :
  country_coronavirus_stats Fixture.web_no_table Fixture.literal_ignorecase
    Fixture.join_path Fixture.repr_tenths "Canada" Fixture.empty_world
  = (Raise AttributeError, Fixture.empty_world).
Proof.
  apply (statistics_table_missing Fixture.web_no_table
           Fixture.literal_ignorecase Fixture.join_path Fixture.repr_tenths
           "Canada" Fixture.empty_world Fixture.canada_page).
  - reflexivity.
  - apply Bs4Facts.find_all_nil. by_computation.
Defined.

Lemma get_first_paragraph_first_line_witness :
  exists paragraph,
    get_first_paragraph Fixture.web Fixture.canada_url Fixture.empty_world
    = (Ok paragraph, Fixture.empty_world)
    /\ match paragraph with
       | Some text =>
           exists before p_tag after,
             find_all (parse Fixture.canada_page) 0%nat (is_tag "p")
               = (before ++ p_tag :: after)%list
             /\ text = get_text (at_ (parse Fixture.canada_page) p_tag)
             /\ starts_with_a_line text
             /\ Forall (fun q => ~ starts_with_a_line
                                     (get_text (at_ (parse Fixture.canada_page) q)))
                  before
       | None =>
           Forall (fun q => ~ starts_with_a_line
                                (get_text (at_ (parse Fixture.canada_page) q)))
             (find_all (parse Fixture.canada_page) 0%nat (is_tag "p"))
       end.
Proof.
  apply (get_first_paragraph_first_line Fixture.web Fixture.canada_url
           Fixture.canada_page Fixture.empty_world).
  reflexivity.
Defined.

Lemma malformed_row_raises_witness :
  country_loop_body (fun _ => Page Fixture.pandemic_page_malformed)
    Fixture.literal_ignorecase Fixture.join_path
    (parse Fixture.pandemic_page_malformed) [] 4%nat Fixture.empty_world
  = (Raise ValueError, Fixture.empty_world).
Proof.
  exact (malformed_row_raises (fun _ => Page Fixture.pandemic_page_malformed)
           Fixture.literal_ignorecase Fixture.join_path
           (parse Fixture.pandemic_page_malformed) [] 4%nat Fixture.empty_world
           "/wiki/2020_coronavirus_pandemic_in_Utopia" eq_refl eq_refl).
Defined.

Lemma get_population_failures_witness :
  get_population Fixture.web_no_table Fixture.literal_ignorecase "Canada"
    Fixture.empty_world
  = (Raise IndexError, Fixture.empty_world).
Proof.
  apply (proj1 (get_population_failures Fixture.web_no_table
                  Fixture.literal_ignorecase "Canada" Fixture.empty_world
                  Fixture.canada_page eq_refl)).
  apply Bs4Facts.find_all_nil. by_computation.
Defined.

Lemma collect_countries_sound_witness :
  Fixture.empty_world = Fixture.empty_world
  /\ NoDup (keys [Fixture.canada_entry])
  /\ exists root table search,
       Fixture.web pandemic_url = Page root
       /\ first_match (parse root) 0%nat (table_with_id "thetable") table
       /\ Fixture.literal_ignorecase "Canada" = Some search
       /\ forall name info,
            dict_get name [Fixture.canada_entry] = Some info ->
            exists country,
              descendant (parse root) table country
              /\ anchor_matching search (at_ (parse root) country) = true
              /\ accepted (parse root) country = true
              /\ country_entry Fixture.web Fixture.literal_ignorecase
                   Fixture.join_path (parse root) Fixture.empty_world country
                   (name, info).
Proof.
  apply (collect_countries_sound Fixture.web Fixture.literal_ignorecase
           Fixture.join_path "Canada" Fixture.empty_world).
  by_computation.
Defined.
